(** * IoT data quality testing and validation

    A shallow embedding of [iot_data_testing.py]: the sensor table, the five
    validation rules, the report aggregator and [main], followed by the
    properties of the rules and of the report.

    Conventions of the embedding.
    - A [float64] cell is [option Q]: [None] is the absent value (NaN, what
      pandas stores for [None] in a numeric column), [Some q] a present
      reading, written as the rational its literal denotes.  Comparisons of
      a cell with the bounds 0, 50 and 100 are the same on the rational and
      on the double.
    - The statistics of the outlier rule are computed on IEEE 754 doubles
      (module [Binary64], on the kernel's primitive floats): a present cell
      is rounded to the nearest double and every operation rounds as the
      hardware does.  Module [Exact] holds the same statistics as exact
      numbers, for comparison; the program does not use it.
    - A DataFrame is the list of its rows; a column is the list of the cells
      of that column, a boolean mask a list of [bool].
    - The functions of the program print and may raise: they live in the
      monad [M], a state monad over the [World] (the DataFrame object that
      [df] refers to, and standard output) with exceptions.  There is one
      DataFrame object in a run and every rule is passed the reference to
      it: the reference carries no information, so the parameter [df] of a
      rule is dropped and the rule reads the object from the world. *)

From Stdlib Require Import ZArith QArith Qabs Qreals Reals.
From Stdlib Require Import List String Bool Lia Psatz.
From Stdlib Require PrimFloat SpecFloat FloatOps.
From Stdlib Require Import Permutation.
Import ListNotations.

(** ** Cells *)

Definition float64 := option Q.
Definition object := option string.

Definition Qlt_bool (x y : Q) : bool := negb (Qle_bool y x).

(** ** The data model: readings and the frame built from them *)

Record SensorReading : Type := mkReading {
  reading_id : string;
  reading_temperature : option Q;
  reading_humidity : option Q;
  reading_timestamp : string
}.

Module Pandas.

(** A row of the frame: the cell of each of the four columns.  Any cell of
    a frame may be null. *)
Record Row : Type := mkRow {
  sensor_id : object;
  temperature : float64;
  humidity : float64;
  timestamp : object
}.

Definition DataFrame := list Row.

Definition row_of_reading (r : SensorReading) : Row :=
  {| sensor_id := Some (reading_id r);
     temperature := reading_temperature r;
     humidity := reading_humidity r;
     timestamp := Some (reading_timestamp r) |}.

(** [pd.DataFrame(...)] on a table of readings. *)
Definition DataFrame_of (rs : list SensorReading) : DataFrame :=
  map row_of_reading rs.

(** [isnull] on one cell. *)
Definition isnull {A : Type} (c : option A) : bool :=
  match c with None => true | Some _ => false end.

(** Number of [True] entries of a boolean column ([.sum()]). *)
Definition count_true (m : list bool) : Z :=
  fold_right (fun (b : bool) acc => ((if b then 1 else 0) + acc)%Z) 0%Z m.

(** [df.isnull().sum()]: the null count of each column. *)
Record NullCounts : Type := mkNullCounts {
  null_sensor_id : Z;
  null_temperature : Z;
  null_humidity : Z;
  null_timestamp : Z
}.

Definition isnull_sum (df : DataFrame) : NullCounts :=
  {| null_sensor_id := count_true (map (fun r => isnull (sensor_id r)) df);
     null_temperature := count_true (map (fun r => isnull (temperature r)) df);
     null_humidity := count_true (map (fun r => isnull (humidity r)) df);
     null_timestamp := count_true (map (fun r => isnull (timestamp r)) df) |}.

(** [missing.sum()]: the sum over the columns. *)
Definition NullCounts_sum (c : NullCounts) : Z :=
  (null_sensor_id c + null_temperature c + null_humidity c + null_timestamp c)%Z.

(** [df.isnull().any(axis=1)]: the rows with a null in some column. *)
Definition isnull_any (df : DataFrame) : list bool :=
  map (fun r => isnull (sensor_id r) || isnull (temperature r)
                || isnull (humidity r) || isnull (timestamp r)) df.

(** [df[mask]]: the rows where the mask holds, in order. *)
Fixpoint select {A : Type} (l : list A) (mask : list bool) : list A :=
  match l, mask with
  | x :: l', b :: mask' => if b then x :: select l' mask' else select l' mask'
  | _, _ => []
  end.

(** [col < c] and [col > c]: a comparison with an absent cell is false. *)
Definition lt_scalar (col : list float64) (c : Q) : list bool :=
  map (fun x => match x with Some q => Qlt_bool q c | None => false end) col.

Definition gt_scalar (col : list float64) (c : Q) : list bool :=
  map (fun x => match x with Some q => Qlt_bool c q | None => false end) col.

(** [m1 | m2] on masks of one length. *)
Fixpoint mask_or (m1 m2 : list bool) : list bool :=
  match m1, m2 with
  | a :: m1', b :: m2' => (a || b) :: mask_or m1' m2'
  | _, _ => []
  end.

Definition object_eqb (a b : object) : bool :=
  match a, b with
  | Some x, Some y => String.eqb x y
  | None, None => true
  | _, _ => false
  end.

Definition occurrences (k : object) (keys : list object) : nat :=
  List.length (filter (object_eqb k) keys).

(** [duplicated(keep=False)] on a column of keys: every row whose key
    occurs more than once is marked. *)
Definition duplicated_keep_false (keys : list object) : list bool :=
  map (fun k => (2 <=? occurrences k keys)%nat) keys.

(** [col.dropna()]. *)
Fixpoint dropna (col : list float64) : list Q :=
  match col with
  | [] => []
  | Some q :: col' => q :: dropna col'
  | None :: col' => dropna col'
  end.

End Pandas.

(** ** Binary64: the arithmetic of a float64 column

    pandas keeps a numeric column as IEEE 754 doubles and numpy computes on
    them.  [of_Q] is the double a present cell holds: the double nearest to
    the rational, which is the value itself when that is a double and the
    double a decimal literal denotes otherwise.  An absent cell stays
    [None].  [np.mean] and [np.std] are library code: [mean] and [std]
    are what numpy computes on a column of fewer than 8 values, such as the
    program's, the sums running from left to right.  The outlier rule is
    written over the two functions ([test_outliers_with]), so that what is
    proved of it for all frames does not depend on how a library sums. *)

Module Binary64.

Definition of_Q (q : Q) : PrimFloat.float :=
  let den := SpecFloat.S754_finite false (Qden q) 0 in
  match Qnum q with
  | Z0 => PrimFloat.zero
  | Zpos n =>
      FloatOps.SF2Prim
        (SpecFloat.SFdiv FloatOps.prec FloatOps.emax
           (SpecFloat.S754_finite false n 0) den)
  | Zneg n =>
      FloatOps.SF2Prim
        (SpecFloat.SFdiv FloatOps.prec FloatOps.emax
           (SpecFloat.S754_finite true n 0) den)
  end.

Definition of_Z (z : Z) : PrimFloat.float := of_Q (inject_Z z).

(** The doubles of a column without nulls, and of a column with nulls. *)
Definition column (xs : list Q) : list PrimFloat.float := map of_Q xs.

Definition series (col : list float64) : list (option PrimFloat.float) :=
  map (option_map of_Q) col.

Definition sum (xs : list PrimFloat.float) : PrimFloat.float :=
  fold_left PrimFloat.add xs PrimFloat.zero.

Definition count (xs : list PrimFloat.float) : PrimFloat.float :=
  of_Z (Z.of_nat (List.length xs)).

(** [np.mean]: NaN (0 / 0) on the empty column. *)
Definition mean (xs : list PrimFloat.float) : PrimFloat.float :=
  PrimFloat.div (sum xs) (count xs).

(** [np.std]: on a pandas column it is the column's [std] with ddof = 0,
    the square root of the mean squared deviation from the mean. *)
Definition std (xs : list PrimFloat.float) : PrimFloat.float :=
  let avg := mean xs in
  let sqr := map (fun x => PrimFloat.mul (PrimFloat.sub avg x)
                                         (PrimFloat.sub avg x)) xs in
  PrimFloat.sqrt (PrimFloat.div (sum sqr) (count xs)).

(** [col - m], [np.abs(col)] and [col > s]: element by element, an absent
    cell stays absent and compares false. *)
Definition sub (col : list (option PrimFloat.float)) (m : PrimFloat.float)
  : list (option PrimFloat.float) :=
  map (option_map (fun x => PrimFloat.sub x m)) col.

Definition abs (col : list (option PrimFloat.float))
  : list (option PrimFloat.float) :=
  map (option_map PrimFloat.abs) col.

Definition gt (col : list (option PrimFloat.float)) (s : PrimFloat.float)
  : list bool :=
  map (fun c => match c with
                | Some x => PrimFloat.ltb s x
                | None => false
                end) col.

(** [(col < lo) | (col > hi)] on doubles. *)
Definition range_mask (col : list (option PrimFloat.float)) (lo hi : Z)
  : list bool :=
  map (fun c => match c with
                | Some x => PrimFloat.ltb x (of_Z lo) || PrimFloat.ltb (of_Z hi) x
                | None => false
                end) col.

(** [(passed / total) * 100] on doubles. *)
Definition success_rate (passed total : Z) : PrimFloat.float :=
  PrimFloat.mul (PrimFloat.div (of_Z passed) (of_Z total)) (of_Z 100).

(** The two threshold tests of the report, on doubles and on rationals. *)
Definition same_class (passed total : Z) : bool :=
  let exact := inject_Z passed / inject_Z total * 100 in
  Bool.eqb (PrimFloat.leb (of_Z 80) (success_rate passed total))
           (Qle_bool 80 exact)
  && Bool.eqb (PrimFloat.leb (of_Z 60) (success_rate passed total))
              (Qle_bool 60 exact).

End Binary64.

(** ** Exact: the statistics as numbers

    The mean and the population standard deviation as the exact numbers the
    words denote, on the rationals the cells stand for, and the mask they
    would give.  The program does not compute these: they are what its
    binary64 figures are compared with.  A standard deviation is a square
    root, so it is kept as the radicand ([Surd]); its value as a real
    number is [Surd_R]. *)

(** [Sqrt v] stands for the non-negative square root of [v]. *)
Inductive Surd : Type := Sqrt (v : Q).

Definition Surd_R (s : Surd) : R :=
  match s with Sqrt v => sqrt (Q2R v) end.

(** [k * s] for a non-negative rational [k]. *)
Definition Surd_scale (k : Q) (s : Surd) : Surd :=
  match s with Sqrt v => Sqrt (k * k * v) end.

(** [x > s], decided on the squares. *)
Definition Qgt_Surd (x : Q) (s : Surd) : bool :=
  match s with Sqrt v => Qlt_bool 0 x && Qlt_bool v (x * x) end.

Module Exact.

Definition Qsum (xs : list Q) : Q := fold_right Qplus 0 xs.

Definition count (xs : list Q) : Q := inject_Z (Z.of_nat (List.length xs)).

(** The mean: none on the empty sample. *)
Definition mean (xs : list Q) : option Q :=
  match xs with
  | [] => None
  | _ => Some (Qsum xs / count xs)
  end.

(** The population variance. *)
Definition var (xs : list Q) : option Q :=
  match mean xs with
  | None => None
  | Some m => Some (Qsum (map (fun x => (x - m) * (x - m)) xs) / count xs)
  end.

(** The population standard deviation, the square root of the variance. *)
Definition std (xs : list Q) : option Surd :=
  match var xs with
  | None => None
  | Some v => Some (Sqrt v)
  end.

Definition sub_scalar (col : list float64) (m : option Q) : list float64 :=
  map (fun x => match x, m with
                | Some q, Some c => Some (q - c)
                | _, _ => None
                end) col.

Definition abs (col : list float64) : list float64 :=
  map (fun x => match x with Some q => Some (Qabs q) | None => None end) col.

Definition gt_surd (col : list float64) (s : option Surd) : list bool :=
  map (fun x => match x, s with
                | Some q, Some r => Qgt_Surd q r
                | _, _ => false
                end) col.

Definition scale (k : Q) (s : option Surd) : option Surd :=
  match s with Some r => Some (Surd_scale k r) | None => None end.

(** The rows whose temperature is present and further than two exact
    standard deviations from the exact mean. *)
Definition outlier_mask (df : Pandas.DataFrame) : list bool :=
  let temp_clean := Pandas.dropna (map Pandas.temperature df) in
  gt_surd (abs (sub_scalar (map Pandas.temperature df) (mean temp_clean)))
          (scale 2 (std temp_clean)).

End Exact.

(** ** Output and exceptions *)

(** What [print] is given: literal text and the values formatted into it. *)
Inductive Piece : Type :=
| Text (s : string)
| Int (n : Z)
| Fixed (digits : nat) (x : float64)
| FixedDouble (digits : nat) (x : PrimFloat.float)
| Obj (o : object)
| Float (x : float64)
| ObjList (l : list object)
| Frame (df : Pandas.DataFrame)
| Counts (c : Pandas.NullCounts).

Definition Line := list Piece.

Inductive exn : Type := ZeroDivisionError.

Inductive Outcome (A : Type) : Type :=
| Ok (a : A)
| Raise (e : exn).

Arguments Ok {A} a.
Arguments Raise {A} e.

Record World : Type := mkWorld {
  frame : Pandas.DataFrame;
  stdout : list Line
}.

Definition M (A : Type) : Type := World -> Outcome A * World.

Definition ret {A : Type} (a : A) : M A := fun w => (Ok a, w).

Definition bind {A B : Type} (m : M A) (k : A -> M B) : M B :=
  fun w => match m w with
           | (Ok a, w') => k a w'
           | (Raise e, w') => (Raise e, w')
           end.

Definition raise {A : Type} (e : exn) : M A := fun w => (Raise e, w).

Declare Scope monad_scope.
Delimit Scope monad_scope with monad.
Notation "x <- m ;; k" := (bind m (fun x => k))
  (at level 61, m at next level, right associativity) : monad_scope.
Notation "m ;; k" := (bind m (fun _ => k))
  (at level 61, right associativity) : monad_scope.
Open Scope monad_scope.

Definition print (l : Line) : M unit :=
  fun w => (Ok tt, {| frame := frame w; stdout := stdout w ++ [l] |}).

(** The object a [df] variable refers to. *)
Definition read_frame : M Pandas.DataFrame := fun w => (Ok (frame w), w).

(** Binding the result of [pd.DataFrame(...)]. *)
Definition new_frame (df : Pandas.DataFrame) : M unit :=
  fun w => (Ok tt, {| frame := df; stdout := stdout w |}).

Fixpoint for_each {A : Type} (l : list A) (body : A -> M unit) : M unit :=
  match l with
  | [] => ret tt
  | x :: l' => body x ;; for_each l' body
  end.

(** ["s" * n]. *)
Fixpoint str_mul (s : string) (n : nat) : string :=
  match n with
  | O => EmptyString
  | S n' => (s ++ str_mul s n')%string
  end.

Definition nl : string := String (Ascii.ascii_of_nat 10) EmptyString.

(** [a / b] on Python integers. *)
Definition true_div (a b : Z) : M Q :=
  if (b =? 0)%Z then raise ZeroDivisionError
  else ret (inject_Z a / inject_Z b).

(** ** The program *)

Import Pandas.

(** The module-level table, column by column. *)
Record Table : Type := mkTable {
  col_sensor_id : list string;
  col_temperature : list (option Q);
  col_humidity : list (option Q);
  col_timestamp : list string
}.

Definition sensor_data : Table :=
  {| col_sensor_id :=
       ["S001"; "S002"; "S003"; "S004"; "S005"; "S006"; "S007"; "S008"]%string;
     col_temperature :=
       [Some 25.5; Some 28.3; None; Some 150.0; Some 22.1; Some (-50.0);
        Some 30.2; Some 26.8];
     col_humidity :=
       [Some 60; Some 65; Some 70; Some 55; None; Some 80; Some 62; Some 68];
     col_timestamp :=
       ["2025-01-15 10:00"; "2025-01-15 10:05"; "2025-01-15 10:10";
        "2025-01-15 10:15"; "2025-01-15 10:20"; "2025-01-15 10:25";
        "2025-01-15 10:30"; "2025-01-15 10:35"]%string |}.

(** The readings of a table whose columns have one length (pandas accepts
    no other): the i-th reading takes the i-th entry of each column. *)
Fixpoint zip_columns (ids : list string) (temps hums : list (option Q))
  (stamps : list string) : list SensorReading :=
  match ids, temps, hums, stamps with
  | i :: ids', t :: temps', h :: hums', s :: stamps' =>
      mkReading i t h s :: zip_columns ids' temps' hums' stamps'
  | _, _, _, _ => []
  end.

Definition readings (t : Table) : list SensorReading :=
  zip_columns (col_sensor_id t) (col_temperature t) (col_humidity t)
              (col_timestamp t).

Definition load_data : M unit :=
  new_frame (DataFrame_of (readings sensor_data)) ;;
  df <- read_frame ;;
  print [Text (str_mul "=" 70)] ;;
  print [Text "IOT DATA QUALITY TESTING SYSTEM"] ;;
  print [Text (str_mul "=" 70)] ;;
  print [Text (nl ++ "📊 Sensor Data Loaded:")] ;;
  print [Frame df] ;;
  print [Text (nl ++ str_mul "=" 70)] ;;
  ret tt.

Definition test_missing_values : M bool :=
  df <- read_frame ;;
  print [Text (nl ++ "🔍 TEST 1: Missing Value Detection")] ;;
  print [Text (str_mul "-" 70)] ;;
  let missing := isnull_sum df in
  print [Counts missing] ;;
  if (0 <? NullCounts_sum missing)%Z then
    print [Text (nl ++ "❌ TEST FAILED: Missing values detected")] ;;
    let missing_sensors := map sensor_id (select df (isnull_any df)) in
    print [Text "   Affected Sensors: "; ObjList missing_sensors] ;;
    ret false
  else
    print [Text (nl ++ "✅ TEST PASSED: No missing values")] ;;
    ret true.

Definition test_temperature_range : M bool :=
  df <- read_frame ;;
  print [Text (nl ++ "🔍 TEST 2: Temperature Range Validation (0-50°C)")] ;;
  print [Text (str_mul "-" 70)] ;;
  let invalid :=
    select df (mask_or (lt_scalar (map temperature df) 0)
                       (gt_scalar (map temperature df) 50)) in
  if (0 <? List.length invalid)%nat then
    print [Text "❌ TEST FAILED: Invalid temperature readings"] ;;
    for_each invalid (fun row =>
      print [Text "   Sensor "; Obj (sensor_id row); Text ": ";
             Float (temperature row); Text "°C"]) ;;
    ret false
  else
    print [Text "✅ TEST PASSED: All temperatures valid"] ;;
    ret true.

Definition test_humidity_range : M bool :=
  df <- read_frame ;;
  print [Text (nl ++ "🔍 TEST 3: Humidity Range Validation (0-100%)")] ;;
  print [Text (str_mul "-" 70)] ;;
  let invalid :=
    select df (mask_or (lt_scalar (map humidity df) 0)
                       (gt_scalar (map humidity df) 100)) in
  if (0 <? List.length invalid)%nat then
    print [Text "❌ TEST FAILED: Invalid humidity readings"] ;;
    for_each invalid (fun row =>
      print [Text "   Sensor "; Obj (sensor_id row); Text ": ";
             Float (humidity row); Text "%"]) ;;
    ret false
  else
    print [Text "✅ TEST PASSED: All humidity values valid"] ;;
    ret true.

Definition test_duplicates : M bool :=
  df <- read_frame ;;
  print [Text (nl ++ "🔍 TEST 4: Duplicate Sensor ID Detection")] ;;
  print [Text (str_mul "-" 70)] ;;
  let duplicates := select df (duplicated_keep_false (map sensor_id df)) in
  if (0 <? List.length duplicates)%nat then
    print [Text "❌ TEST FAILED: Duplicate sensor IDs found"] ;;
    print [Frame duplicates] ;;
    ret false
  else
    print [Text "✅ TEST PASSED: No duplicates"] ;;
    ret true.

(** The mask [np.abs(df['temperature'] - mean) > (2 * std)], for the
    library functions [np.mean] and [np.std]. *)
Definition outlier_mask_with
  (np_mean np_std : list PrimFloat.float -> PrimFloat.float)
  (df : DataFrame) : list bool :=
  let temp_clean := Binary64.column (dropna (map temperature df)) in
  let mean := np_mean temp_clean in
  let std := np_std temp_clean in
  Binary64.gt
    (Binary64.abs (Binary64.sub (Binary64.series (map temperature df)) mean))
    (PrimFloat.mul (Binary64.of_Z 2) std).

Definition test_outliers_with
  (np_mean np_std : list PrimFloat.float -> PrimFloat.float) : M bool :=
  df <- read_frame ;;
  print [Text (nl ++ "🔍 TEST 5: Outlier Detection (Temperature)")] ;;
  print [Text (str_mul "-" 70)] ;;
  let temp_clean := Binary64.column (dropna (map temperature df)) in
  let mean := np_mean temp_clean in
  let std := np_std temp_clean in
  print [Text "Mean Temperature: "; FixedDouble 2 mean; Text "°C"] ;;
  print [Text "Standard Deviation: "; FixedDouble 2 std; Text "°C"] ;;
  let outliers :=
    select df
      (Binary64.gt
         (Binary64.abs
            (Binary64.sub (Binary64.series (map temperature df)) mean))
         (PrimFloat.mul (Binary64.of_Z 2) std)) in
  if (0 <? List.length outliers)%nat then
    print [Text (nl ++ "⚠️  WARNING: Outliers detected")] ;;
    for_each outliers (fun row =>
      print [Text "   Sensor "; Obj (sensor_id row); Text ": ";
             Float (temperature row); Text "°C"]) ;;
    ret false
  else
    print [Text (nl ++ "✅ TEST PASSED: No outliers")] ;;
    ret true.

(** The rule and its mask in the program. *)
Definition outlier_mask (df : DataFrame) : list bool :=
  outlier_mask_with Binary64.mean Binary64.std df.

Definition test_outliers : M bool :=
  test_outliers_with Binary64.mean Binary64.std.

(** [sum(results)]: a passed rule counts 1, a failed one 0. *)
Definition sum_bools (results : list bool) : Z :=
  fold_left (fun acc (b : bool) => (acc + (if b then 1 else 0))%Z) results 0%Z.

Definition generate_report (results : list bool) : M unit :=
  print [Text (nl ++ str_mul "=" 70)] ;;
  print [Text "📋 FINAL TEST REPORT"] ;;
  print [Text (str_mul "=" 70)] ;;
  let total_tests := Z.of_nat (List.length results) in
  let passed := sum_bools results in
  let failed := (total_tests - passed)%Z in
  ratio <- true_div passed total_tests ;;
  let success_rate := ratio * 100 in
  print [Text "Total Tests: "; Int total_tests] ;;
  print [Text "Passed: "; Int passed] ;;
  print [Text "Failed: "; Int failed] ;;
  print [Text "Success Rate: "; Fixed 1 (Some success_rate); Text "%"] ;;
  print [Text (nl ++ "📊 Data Quality Score: "); Fixed 1 (Some success_rate);
         Text "%"] ;;
  (if Qle_bool 80 success_rate then
     print [Text "✅ RESULT: Data quality is GOOD"]
   else if Qle_bool 60 success_rate then
     print [Text "⚠️  RESULT: Data quality needs IMPROVEMENT"]
   else
     print [Text "❌ RESULT: Data quality is POOR"]) ;;
  print [Text (str_mul "=" 70)].

Definition main : M unit :=
  load_data ;;
  let results := [] in
  r <- test_missing_values ;; let results := results ++ [r] in
  r <- test_temperature_range ;; let results := results ++ [r] in
  r <- test_humidity_range ;; let results := results ++ [r] in
  r <- test_duplicates ;; let results := results ++ [r] in
  r <- test_outliers ;; let results := results ++ [r] in
  generate_report results.

(** The interpreter's exit status: 0 when [main] returns, 1 when an
    exception reaches the top level. *)
Definition exit_status (o : Outcome unit) : Z :=
  match o with Ok _ => 0%Z | Raise _ => 1%Z end.

(** The world in which the script starts: no frame yet, nothing printed. *)
Definition initial_world : World := {| frame := []; stdout := [] |}.

(** ** The words of the specification *)

(** The value a rule returns when run on the frame [df], whatever has been
    printed before. *)
Definition returns (rule : M bool) (df : DataFrame) (b : bool) : Prop :=
  forall out, fst (rule {| frame := df; stdout := out |}) = Ok b.

Definition Rsum (xs : list R) : R := fold_right Rplus 0%R xs.

(** [m] is the arithmetic mean of the non-empty sample [xs]. *)
Definition is_mean (xs : list Q) (m : R) : Prop :=
  xs <> [] /\ (m * INR (List.length xs) = Rsum (map Q2R xs))%R.

(** [s] is the population standard deviation of the non-empty sample [xs]:
    the non-negative root of the mean squared deviation from the mean. *)
Definition is_population_std (xs : list Q) (s : R) : Prop :=
  (0 <= s)%R /\
  exists m, is_mean xs m /\
    (s * s * INR (List.length xs)
     = Rsum (map (fun x => (Q2R x - m) * (Q2R x - m)) xs))%R.

(** The present temperatures of a collection of readings. *)
Definition present_temperatures (rs : list SensorReading) : list Q :=
  dropna (map reading_temperature rs).

(** A reading is an outlier of the collection when its temperature is
    present and lies more than two standard deviations from the mean. *)
Definition is_outlier (rs : list SensorReading) (r : SensorReading) : Prop :=
  exists t m s,
    reading_temperature r = Some t /\
    is_mean (present_temperatures rs) m /\
    is_population_std (present_temperatures rs) s /\
    (Rabs (Q2R t - m) > 2 * s)%R.

(** A present cell of a reading lies outside the closed range from [lo]
    to [hi]. *)
Definition out_of_range (cell : SensorReading -> option Q) (lo hi : Q)
  (r : SensorReading) : bool :=
  match cell r with Some q => Qlt_bool q lo | None => false end
  || match cell r with Some q => Qlt_bool hi q | None => false end.

(** Two readings of the hardcoded table. *)
Definition S004 : SensorReading :=
  mkReading "S004" (Some 150.0) (Some 55) "2025-01-15 10:15".

Definition S006 : SensorReading :=
  mkReading "S006" (Some (-50.0)) (Some 80) "2025-01-15 10:25".

(** Five readings with the last one exactly two population standard
    deviations above the mean: mean 10.2, deviation 0.4. *)
Definition boundary_readings : list SensorReading :=
  [ mkReading "S1" (Some 10) (Some 50) "2025-01-15 10:00";
    mkReading "S2" (Some 10) (Some 50) "2025-01-15 10:05";
    mkReading "S3" (Some 10) (Some 50) "2025-01-15 10:10";
    mkReading "S4" (Some 10) (Some 50) "2025-01-15 10:15";
    mkReading "S5" (Some 11) (Some 50) "2025-01-15 10:20" ].

(** Five readings whose temperatures sum to different doubles when read
    forwards and backwards. *)
Definition order_readings : list SensorReading :=
  [ mkReading "S1" (Some 0.1) (Some 50) "2025-01-15 10:00";
    mkReading "S2" (Some 0.1) (Some 50) "2025-01-15 10:05";
    mkReading "S3" (Some 0.1) (Some 50) "2025-01-15 10:10";
    mkReading "S4" (Some 0.1) (Some 50) "2025-01-15 10:15";
    mkReading "S5" (Some 0.2) (Some 50) "2025-01-15 10:20" ].

(** The data quality classes of the report. *)
Inductive Quality : Type := GOOD | NEEDS_IMPROVEMENT | POOR.

Definition quality_line (q : Quality) : Line :=
  match q with
  | GOOD => [Text "✅ RESULT: Data quality is GOOD"]
  | NEEDS_IMPROVEMENT => [Text "⚠️  RESULT: Data quality needs IMPROVEMENT"]
  | POOR => [Text "❌ RESULT: Data quality is POOR"]
  end.

(** The lines of a report with the given figures. *)
Definition report_lines (total passed failed : Z) (rate : Q) (q : Quality)
  : list Line :=
  [ [Text (nl ++ str_mul "=" 70)];
    [Text "📋 FINAL TEST REPORT"];
    [Text (str_mul "=" 70)];
    [Text "Total Tests: "; Int total];
    [Text "Passed: "; Int passed];
    [Text "Failed: "; Int failed];
    [Text "Success Rate: "; Fixed 1 (Some rate); Text "%"];
    [Text (nl ++ "📊 Data Quality Score: "); Fixed 1 (Some rate); Text "%"];
    quality_line q;
    [Text (str_mul "=" 70)] ].

(** The boolean each rule computes from the frame it reads. *)

Definition missing_values_verdict (df : DataFrame) : bool :=
  negb (0 <? NullCounts_sum (isnull_sum df))%Z.

Definition temperature_range_verdict (df : DataFrame) : bool :=
  negb (existsb (fun r =>
    match temperature r with Some q => Qlt_bool q 0 | None => false end
    || match temperature r with Some q => Qlt_bool 50 q | None => false end)
  df).

Definition humidity_range_verdict (df : DataFrame) : bool :=
  negb (existsb (fun r =>
    match humidity r with Some q => Qlt_bool q 0 | None => false end
    || match humidity r with Some q => Qlt_bool 100 q | None => false end)
  df).

Definition duplicates_verdict (df : DataFrame) : bool :=
  negb (existsb (fun r =>
    (2 <=? occurrences (sensor_id r) (map sensor_id df))%nat) df).

Definition outliers_verdict (df : DataFrame) : bool :=
  negb (0 <? List.length (select df (outlier_mask df)))%nat.

Definition outliers_verdict_with
  (np_mean np_std : list PrimFloat.float -> PrimFloat.float)
  (df : DataFrame) : bool :=
  negb (0 <? List.length (select df (outlier_mask_with np_mean np_std df)))%nat.

(** A rule reads the frame and prints: its result is a function of the
    frame, and the frame is the same afterwards. *)
Definition read_only (rule : M bool) (verdict : DataFrame -> bool) : Prop :=
  forall w, fst (rule w) = Ok (verdict (frame w))
            /\ frame (snd (rule w)) = frame w.

(** The rule set, in the order [main] runs it, and its evaluation. *)
Definition rule_set : list (M bool) :=
  [ test_missing_values; test_temperature_range; test_humidity_range;
    test_duplicates; test_outliers ].

Fixpoint run_rules (rules : list (M bool)) : M (list bool) :=
  match rules with
  | [] => ret []
  | rule :: rest =>
      r <- rule ;;
      rs <- run_rules rest ;;
      ret (r :: rs)
  end.

(** ** Further notions used by the properties *)

(** A row with a null in one of its four cells. *)
Definition row_has_null (r : Row) : bool :=
  isnull (sensor_id r) || isnull (temperature r)
  || isnull (humidity r) || isnull (timestamp r).

(** A row whose cell [cell] is present and outside the closed range from
    [lo] to [hi]. *)
Definition cell_out_of_range (cell : Row -> float64) (lo hi : Q) (r : Row)
  : bool :=
  match cell r with Some q => Qlt_bool q lo | None => false end
  || match cell r with Some q => Qlt_bool hi q | None => false end.

(** A row whose identifier occurs at least twice in the frame [df]. *)
Definition row_duplicated (df : DataFrame) (r : Row) : bool :=
  (2 <=? occurrences (sensor_id r) (map sensor_id df))%nat.

(** The line a rule prints for an offending row. *)
Definition sensor_line (cell : Row -> float64) (unit : string) (row : Row)
  : Line :=
  [Text "   Sensor "; Obj (sensor_id row); Text ": "; Float (cell row);
   Text unit].

(** What a function prints when run on the frame [df], nothing having been
    printed before. *)
Definition output_on {A : Type} (m : M A) (df : DataFrame) : list Line :=
  stdout (snd (m {| frame := df; stdout := [] |})).

(** A function that keeps the frame and only adds lines to standard
    output, the same lines whatever was printed before. *)
Definition appends {A : Type} (m : M A) : Prop :=
  forall w, snd (m w)
            = {| frame := frame w;
                 stdout := stdout w ++ output_on m (frame w) |}.

(** * Properties *)

(** ** Comparisons *)

Lemma Qlt_bool_iff (x y : Q) : Qlt_bool x y = true <-> x < y.
Proof.
  unfold Qlt_bool. rewrite negb_true_iff.
  split; intro H.
  - apply Qnot_le_lt. intro Hle. apply Qle_bool_iff in Hle. congruence.
  - destruct (Qle_bool y x) eqn:E; [|reflexivity].
    apply Qle_bool_iff in E. exfalso. exact (Qlt_not_le _ _ H E).
Qed.

Lemma Qlt_bool_false_iff (x y : Q) : Qlt_bool x y = false <-> y <= x.
Proof.
  unfold Qlt_bool. rewrite negb_false_iff. apply Qle_bool_iff.
Qed.

(** ** Masks and selections *)

Section Masks.
Context {A : Type}.

Lemma select_map (p : A -> bool) (l : list A) :
  select l (map p l) = filter p l.
Proof.
  induction l as [|x l IH]; simpl; [reflexivity|].
  rewrite IH. reflexivity.
Qed.

Lemma mask_or_map (p q : A -> bool) (l : list A) :
  mask_or (map p l) (map q l) = map (fun x => p x || q x) l.
Proof.
  induction l as [|x l IH]; simpl; [reflexivity|].
  rewrite IH. reflexivity.
Qed.

Lemma nonempty_filter (p : A -> bool) (l : list A) :
  (0 <? List.length (filter p l))%nat = existsb p l.
Proof.
  induction l as [|x l IH]; simpl; [reflexivity|].
  destruct (p x); simpl; [reflexivity | exact IH].
Qed.

Lemma In_length_pos (x : A) (l : list A) : In x l -> (0 < List.length l)%nat.
Proof. destruct l; simpl; [tauto | lia]. Qed.

Lemma count_true_nonneg (m : list bool) : (0 <= count_true m)%Z.
Proof.
  induction m as [|b m IH]; simpl; [lia|]. destruct b; lia.
Qed.

Lemma count_true_pos (p : A -> bool) (l : list A) :
  (0 <? count_true (map p l))%Z = existsb p l.
Proof.
  induction l as [|x l IH]; [reflexivity|].
  pose proof (count_true_nonneg (map p l)) as Hn.
  change (count_true (map p (x :: l)))
    with ((if p x then 1 else 0) + count_true (map p l))%Z.
  change (existsb p (x :: l)) with (p x || existsb p l).
  destruct (p x); cbn [orb].
  - apply Z.ltb_lt. lia.
  - rewrite Z.add_0_l. exact IH.
Qed.

End Masks.

(** ** Running the rules *)

Lemma for_each_print {A : Type} (h : A -> Line) (l : list A) (w : World) :
  for_each l (fun x => print (h x)) w
  = (Ok tt, {| frame := frame w; stdout := stdout w ++ map h l |}).
Proof.
  revert w. induction l as [|x l IH]; intro w; simpl.
  - unfold ret. rewrite app_nil_r. destruct w; reflexivity.
  - unfold bind, print at 1. rewrite IH. simpl.
    rewrite <- app_assoc. reflexivity.
Qed.

(** Each rule returns the boolean computed from the frame, and leaves the
    frame as it found it. *)

Lemma test_missing_values_run : read_only test_missing_values missing_values_verdict.
Proof.
  intro w. unfold missing_values_verdict.
  unfold test_missing_values, bind, read_frame, print, ret; simpl.
  destruct (0 <? _)%Z; simpl; split; reflexivity.
Qed.

Lemma test_temperature_range_run :
  read_only test_temperature_range temperature_range_verdict.
Proof.
  intro w. unfold temperature_range_verdict.
  unfold test_temperature_range, bind, read_frame; simpl.
  unfold lt_scalar, gt_scalar. rewrite !map_map, mask_or_map, select_map.
  rewrite nonempty_filter.
  destruct (existsb _ _); cbn [negb].
  - rewrite for_each_print. split; reflexivity.
  - split; reflexivity.
Qed.

Lemma test_humidity_range_run :
  read_only test_humidity_range humidity_range_verdict.
Proof.
  intro w. unfold humidity_range_verdict.
  unfold test_humidity_range, bind, read_frame; simpl.
  unfold lt_scalar, gt_scalar. rewrite !map_map, mask_or_map, select_map.
  rewrite nonempty_filter.
  destruct (existsb _ _); cbn [negb].
  - rewrite for_each_print. split; reflexivity.
  - split; reflexivity.
Qed.

Lemma test_duplicates_run : read_only test_duplicates duplicates_verdict.
Proof.
  intro w. unfold duplicates_verdict.
  unfold test_duplicates, bind, read_frame; simpl.
  unfold duplicated_keep_false. rewrite map_map, select_map, nonempty_filter.
  destruct (existsb _ _); split; reflexivity.
Qed.

Lemma test_outliers_with_run
  (np_mean np_std : list PrimFloat.float -> PrimFloat.float) :
  read_only (test_outliers_with np_mean np_std)
            (outliers_verdict_with np_mean np_std).
Proof.
  intro w. unfold outliers_verdict_with.
  unfold test_outliers_with, bind, read_frame; simpl.
  fold (outlier_mask_with np_mean np_std (frame w)).
  destruct (0 <? _)%nat; cbn [negb].
  - rewrite for_each_print. split; reflexivity.
  - split; reflexivity.
Qed.

Lemma test_outliers_run : read_only test_outliers outliers_verdict.
Proof. exact (test_outliers_with_run Binary64.mean Binary64.std). Qed.

(** ** From rationals to reals *)

Lemma Q2R_inject_Z (z : Z) : Q2R (inject_Z z) = IZR z.
Proof. unfold Q2R, inject_Z; simpl. field. Qed.

Lemma Q2R_count (xs : list Q) : Q2R (Exact.count xs) = INR (List.length xs).
Proof. unfold Exact.count. rewrite Q2R_inject_Z, INR_IZR_INZ. reflexivity. Qed.

Lemma count_nonzero (xs : list Q) : xs <> [] -> ~ Exact.count xs == 0.
Proof.
  intros Hne Heq. apply Qeq_eqR in Heq.
  rewrite Q2R_count, RMicromega.Q2R_0 in Heq.
  destruct xs as [|x xs]; [congruence|].
  simpl List.length in Heq. rewrite S_INR in Heq.
  pose proof (pos_INR (List.length xs)). lra.
Qed.

Lemma INR_length_pos (xs : list Q) : xs <> [] -> (0 < INR (List.length xs))%R.
Proof.
  intro Hne. apply lt_0_INR. destruct xs; [congruence | simpl; lia].
Qed.

Lemma Q2R_Qsum (xs : list Q) : Q2R (Exact.Qsum xs) = Rsum (map Q2R xs).
Proof.
  induction xs as [|x xs IH]; simpl.
  - apply RMicromega.Q2R_0.
  - rewrite Q2R_plus, IH. reflexivity.
Qed.

Lemma Q2R_Qsum_sq (m : Q) (xs : list Q) :
  Q2R (Exact.Qsum (map (fun x => (x - m) * (x - m)) xs))
  = Rsum (map (fun x => (Q2R x - Q2R m) * (Q2R x - Q2R m))%R xs).
Proof.
  induction xs as [|x xs IH]; simpl.
  - apply RMicromega.Q2R_0.
  - rewrite Q2R_plus, Q2R_mult, Q2R_minus, IH. reflexivity.
Qed.

Lemma Rsum_sq_nonneg (m : R) (xs : list Q) :
  (0 <= Rsum (map (fun x => (Q2R x - m) * (Q2R x - m)) xs))%R.
Proof.
  induction xs as [|x xs IH]; simpl; [lra|].
  pose proof (Rle_0_sqr (Q2R x - m)) as Hs. unfold Rsqr in Hs. lra.
Qed.

Lemma Q2R_Qabs (d : Q) : Q2R (Qabs d) = Rabs (Q2R d).
Proof.
  destruct (Qlt_le_dec d 0) as [Hneg | Hpos].
  - rewrite (Qeq_eqR _ _ (Qabs_neg d (Qlt_le_weak _ _ Hneg))), Q2R_opp.
    apply Qlt_Rlt in Hneg. rewrite RMicromega.Q2R_0 in Hneg.
    rewrite Rabs_left; [reflexivity | exact Hneg].
  - rewrite (Qeq_eqR _ _ (Qabs_pos d Hpos)).
    apply Qle_Rle in Hpos. rewrite RMicromega.Q2R_0 in Hpos.
    rewrite Rabs_right; [reflexivity | lra].
Qed.

(** The comparison on the squares is the comparison of the reals. *)
Lemma Qgt_Surd_scale2 (x v : Q) :
  0 <= v ->
  Qgt_Surd x (Surd_scale 2 (Sqrt v)) = true
  <-> (Q2R x > 2 * Surd_R (Sqrt v))%R.
Proof.
  intro Hv. apply Qle_Rle in Hv. rewrite RMicromega.Q2R_0 in Hv.
  pose proof (sqrt_pos (Q2R v)) as Hs.
  pose proof (sqrt_sqrt (Q2R v) Hv) as Hss.
  simpl. rewrite andb_true_iff, !Qlt_bool_iff.
  split.
  - intros [H0 Hlt].
    apply Qlt_Rlt in H0. apply Qlt_Rlt in Hlt.
    rewrite RMicromega.Q2R_0 in H0.
    rewrite !Q2R_mult in Hlt.
    replace (Q2R 2) with 2%R in Hlt by (unfold Q2R; simpl; field).
    apply Rlt_gt. apply Rsqr_incrst_0; [unfold Rsqr | lra | lra].
    nra.
  - intro Hgt. apply Rgt_lt in Hgt.
    assert (H0 : (0 < Q2R x)%R) by lra.
    split.
    + apply Rlt_Qlt. rewrite RMicromega.Q2R_0. exact H0.
    + apply Rlt_Qlt. rewrite !Q2R_mult.
      replace (Q2R 2) with 2%R by (unfold Q2R; simpl; field).
      apply Rsqr_incrst_1 in Hgt; [unfold Rsqr in Hgt | lra | lra].
      nra.
Qed.

(** ** Mean and standard deviation *)

Lemma is_mean_unique (xs : list Q) (m1 m2 : R) :
  is_mean xs m1 -> is_mean xs m2 -> m1 = m2.
Proof.
  intros [Hne H1] [_ H2].
  pose proof (INR_length_pos _ Hne) as Hn.
  apply Rmult_eq_reg_r with (r := INR (List.length xs)); [congruence | lra].
Qed.

Lemma is_population_std_unique (xs : list Q) (s1 s2 : R) :
  is_population_std xs s1 -> is_population_std xs s2 -> s1 = s2.
Proof.
  intros [Hs1 [m1 [Hm1 H1]]] [Hs2 [m2 [Hm2 H2]]].
  rewrite (is_mean_unique _ _ _ Hm2 Hm1) in H2.
  pose proof (INR_length_pos _ (proj1 Hm1)) as Hn.
  assert (Hsq : (s1 * s1 = s2 * s2)%R).
  { apply Rmult_eq_reg_r with (r := INR (List.length xs)); [congruence | lra]. }
  rewrite <- (sqrt_square s1 Hs1), <- (sqrt_square s2 Hs2), Hsq. reflexivity.
Qed.

Lemma mean_nonempty (xs : list Q) :
  xs <> [] -> Exact.mean xs = Some (Exact.Qsum xs / Exact.count xs).
Proof. destruct xs; [congruence | reflexivity]. Qed.

Lemma mean_Some_nonempty (xs : list Q) (m : Q) :
  Exact.mean xs = Some m -> xs <> [].
Proof. destruct xs; simpl; congruence. Qed.

Lemma mean_is_mean (xs : list Q) (m : Q) :
  Exact.mean xs = Some m -> is_mean xs (Q2R m).
Proof.
  intro Hm. pose proof (mean_Some_nonempty _ _ Hm) as Hne.
  rewrite (mean_nonempty _ Hne) in Hm. injection Hm as <-.
  split; [exact Hne|].
  rewrite (Q2R_div _ _ (count_nonzero _ Hne)), Q2R_count, Q2R_Qsum.
  pose proof (INR_length_pos _ Hne). field. lra.
Qed.

Lemma var_Q2R (xs : list Q) (m v : Q) :
  Exact.mean xs = Some m -> Exact.var xs = Some v ->
  (Q2R v * INR (List.length xs)
   = Rsum (map (fun x => (Q2R x - Q2R m) * (Q2R x - Q2R m)) xs))%R.
Proof.
  intros Hm Hv. pose proof (mean_Some_nonempty _ _ Hm) as Hne.
  unfold Exact.var in Hv. rewrite Hm in Hv. injection Hv as <-.
  rewrite (Q2R_div _ _ (count_nonzero _ Hne)), Q2R_count, Q2R_Qsum_sq.
  pose proof (INR_length_pos _ Hne). field. lra.
Qed.

Lemma var_nonneg (xs : list Q) (v : Q) : Exact.var xs = Some v -> 0 <= v.
Proof.
  intro Hv. destruct (Exact.mean xs) as [m|] eqn:Hm;
    [| unfold Exact.var in Hv; rewrite Hm in Hv; discriminate].
  pose proof (var_Q2R _ _ _ Hm Hv) as H.
  pose proof (INR_length_pos _ (mean_Some_nonempty _ _ Hm)) as Hn.
  pose proof (Rsum_sq_nonneg (Q2R m) xs) as Hs.
  apply Rle_Qle. rewrite RMicromega.Q2R_0. nra.
Qed.

Lemma std_is_population_std (xs : list Q) (s : Surd) :
  Exact.std xs = Some s -> is_population_std xs (Surd_R s).
Proof.
  unfold Exact.std. destruct (Exact.var xs) as [v|] eqn:Hv; [|discriminate].
  intro Hs. injection Hs as <-. simpl.
  destruct (Exact.mean xs) as [m|] eqn:Hm;
    [| unfold Exact.var in Hv; rewrite Hm in Hv; discriminate].
  split; [apply sqrt_pos|].
  exists (Q2R m). split; [exact (mean_is_mean _ _ Hm)|].
  pose proof (var_nonneg _ _ Hv) as Hnn.
  apply Qle_Rle in Hnn. rewrite RMicromega.Q2R_0 in Hnn.
  rewrite (sqrt_sqrt _ Hnn). exact (var_Q2R _ _ _ Hm Hv).
Qed.

Lemma std_nonempty (xs : list Q) :
  xs <> [] -> exists m v,
    Exact.mean xs = Some m /\ Exact.var xs = Some v /\ Exact.std xs = Some (Sqrt v).
Proof.
  intro Hne. unfold Exact.std, Exact.var. rewrite (mean_nonempty _ Hne).
  eexists. eexists. repeat split.
Qed.

(** ** The exact mask *)

(** The exact mask row by row, given the exact statistics of the
    temperature column. *)
Lemma outlier_mask_map (df : DataFrame) :
  Exact.outlier_mask df
  = map (fun r =>
           match temperature r,
                 Exact.mean (dropna (map temperature df)),
                 Exact.std (dropna (map temperature df)) with
           | Some t, Some m, Some s => Qgt_Surd (Qabs (t - m)) (Surd_scale 2 s)
           | _, _, _ => false
           end) df.
Proof.
  unfold Exact.outlier_mask, Exact.gt_surd, Exact.abs, Exact.sub_scalar,
    Exact.scale.
  rewrite !map_map. apply map_ext. intro r.
  destruct (temperature r), (Exact.mean (dropna (map temperature df))),
    (Exact.std (dropna (map temperature df))); reflexivity.
Qed.

Lemma temperature_column (rs : list SensorReading) :
  dropna (map temperature (DataFrame_of rs)) = present_temperatures rs.
Proof.
  unfold DataFrame_of, present_temperatures. rewrite map_map. reflexivity.
Qed.

(** [dropna] keeps the present cells, each once and in order. *)
Lemma dropna_filter (col : list float64) :
  map Some (dropna col) = filter (fun c => negb (isnull c)) col.
Proof.
  induction col as [|[q|] col IH]; simpl; [reflexivity | | exact IH].
  rewrite IH. reflexivity.
Qed.

Lemma dropna_In (col : list float64) (t : Q) :
  In (Some t) col -> In t (dropna col).
Proof.
  induction col as [|c col IH]; simpl; [tauto|].
  intros [-> | Hin]; [left; reflexivity|].
  destruct c; [right|]; auto.
Qed.

Lemma row_of_reading_inj (r1 r2 : SensorReading) :
  row_of_reading r1 = row_of_reading r2 -> r1 = r2.
Proof.
  destruct r1, r2. unfold row_of_reading; simpl. congruence.
Qed.

Lemma In_DataFrame_of (rs : list SensorReading) (r : SensorReading) :
  In (row_of_reading r) (DataFrame_of rs) <-> In r rs.
Proof.
  unfold DataFrame_of. split.
  - intro H. apply in_map_iff in H. destruct H as [r' [Heq Hin]].
    apply row_of_reading_inj in Heq. congruence.
  - apply in_map.
Qed.

Lemma outlier_row_iff (rs : list SensorReading) (r : SensorReading) :
  In r rs ->
  match reading_temperature r,
        Exact.mean (present_temperatures rs),
        Exact.std (present_temperatures rs) with
  | Some t, Some m, Some s => Qgt_Surd (Qabs (t - m)) (Surd_scale 2 s)
  | _, _, _ => false
  end = true
  <-> is_outlier rs r.
Proof.
  intro Hin. unfold is_outlier.
  destruct (reading_temperature r) as [t|] eqn:Ht.
  2:{ split; [discriminate|]. intros [t [m [s [Habs _]]]]. discriminate. }
  assert (Hne : present_temperatures rs <> []).
  { intro Hnil. assert (Hin' : In t (present_temperatures rs)).
    { apply dropna_In. rewrite <- Ht. apply in_map. exact Hin. }
    rewrite Hnil in Hin'. exact Hin'. }
  destruct (std_nonempty _ Hne) as [m [v [Hm [Hv Hs]]]].
  rewrite Hm, Hs.
  rewrite (Qgt_Surd_scale2 _ _ (var_nonneg _ _ Hv)), Q2R_Qabs, Q2R_minus.
  pose proof (mean_is_mean _ _ Hm) as Hmean.
  pose proof (std_is_population_std _ _ Hs) as Hstd.
  split.
  - intro Hgt. exists t, (Q2R m), (Surd_R (Sqrt v)). auto.
  - intros [t' [m' [s' [Ht' [Hm' [Hs' Hgt]]]]]].
    injection Ht' as <-.
    rewrite (is_mean_unique _ _ _ Hmean Hm'), (is_population_std_unique _ _ _ Hstd Hs').
    exact Hgt.
Qed.

(** The exact mask selects the readings that lie more than two population
    standard deviations from the mean. *)
Lemma exact_outlier_mask (rs : list SensorReading) (r : SensorReading) :
  In (row_of_reading r)
     (select (DataFrame_of rs) (Exact.outlier_mask (DataFrame_of rs)))
  <-> In r rs /\ is_outlier rs r.
Proof.
  rewrite outlier_mask_map, select_map, filter_In, temperature_column.
  rewrite In_DataFrame_of.
  split; intros [Hin H]; (split; [exact Hin|]);
    apply (outlier_row_iff rs r Hin); exact H.
Qed.

(** ** What the rules return *)

Lemma returns_value (rule : M bool) (verdict : DataFrame -> bool) :
  read_only rule verdict ->
  forall df b, returns rule df b <-> verdict df = b.
Proof.
  intros Hrun df b. unfold returns. split.
  - intro H. specialize (H []). rewrite (proj1 (Hrun _)) in H.
    simpl in H. congruence.
  - intros <- out. rewrite (proj1 (Hrun _)). reflexivity.
Qed.

Lemma existsb_orb {A : Type} (p q : A -> bool) (l : list A) :
  existsb (fun x => p x || q x) l = existsb p l || existsb q l.
Proof.
  induction l as [|x l IH]; simpl; [reflexivity|].
  rewrite IH. destruct (p x), (q x), (existsb p l); reflexivity.
Qed.

Lemma existsb_DataFrame_of (p : Row -> bool) (rs : list SensorReading) :
  existsb p (DataFrame_of rs) = existsb (fun r => p (row_of_reading r)) rs.
Proof.
  unfold DataFrame_of. induction rs as [|r rs IH]; simpl; [reflexivity|].
  rewrite IH. reflexivity.
Qed.

(** The missing-value rule looks at every column of the frame. *)
Lemma missing_any_column (df : DataFrame) :
  (0 <? NullCounts_sum (isnull_sum df))%Z
  = existsb (fun r => isnull (sensor_id r) || isnull (temperature r)
                      || isnull (humidity r) || isnull (timestamp r)) df.
Proof.
  rewrite !existsb_orb.
  rewrite <- !(count_true_pos (A := Row)).
  unfold NullCounts_sum, isnull_sum; simpl.
  pose proof (count_true_nonneg (map (fun r => isnull (sensor_id r)) df)).
  pose proof (count_true_nonneg (map (fun r => isnull (temperature r)) df)).
  pose proof (count_true_nonneg (map (fun r => isnull (humidity r)) df)).
  pose proof (count_true_nonneg (map (fun r => isnull (timestamp r)) df)).
  repeat match goal with
         | |- context [(0 <? ?x)%Z] => destruct (Z.ltb_spec 0 x)
         end; simpl; try reflexivity; lia.
Qed.

Lemma isnull_true_iff {A : Type} (c : option A) : isnull c = true <-> c = None.
Proof. destruct c; simpl; split; congruence. Qed.

(** ** Identifiers *)

Lemma occurrences_count_occ (ids : list string) (id : string) :
  occurrences (Some id) (map Some ids) = count_occ string_dec ids id.
Proof.
  unfold occurrences. induction ids as [|x ids IH]; simpl; [reflexivity|].
  destruct (string_dec x id) as [-> | Hne].
  - rewrite String.eqb_refl. simpl. rewrite IH. reflexivity.
  - destruct (String.eqb_spec id x) as [-> | _]; [congruence | exact IH].
Qed.

Lemma sensor_id_column (rs : list SensorReading) :
  map sensor_id (DataFrame_of rs) = map Some (map reading_id rs).
Proof.
  unfold DataFrame_of. rewrite !map_map. reflexivity.
Qed.

Lemma duplicated_iff (rs : list SensorReading) :
  existsb (fun r => (2 <=? occurrences (sensor_id r)
                            (map sensor_id (DataFrame_of rs)))%nat)
          (DataFrame_of rs) = true
  <-> exists id, (2 <= count_occ string_dec (map reading_id rs) id)%nat.
Proof.
  rewrite existsb_DataFrame_of, existsb_exists, sensor_id_column.
  split.
  - intros [r [_ H]]. exists (reading_id r).
    apply Nat.leb_le in H. simpl in H.
    rewrite occurrences_count_occ in H. exact H.
  - intros [id H].
    assert (Hin : In id (map reading_id rs)).
    { apply (count_occ_In string_dec). lia. }
    apply in_map_iff in Hin. destruct Hin as [r [<- Hin]].
    exists r. split; [exact Hin|].
    apply Nat.leb_le. simpl. rewrite occurrences_count_occ. exact H.
Qed.

(** On a frame with arbitrary cells the missing-value rule fails exactly
    when some row has a null in one of the four columns. *)
Lemma test_missing_values_any_column (df : DataFrame) :
  returns test_missing_values df false
  <-> exists row, In row df /\
        (sensor_id row = None \/ temperature row = None
         \/ humidity row = None \/ timestamp row = None).
Proof.
  rewrite (returns_value _ _ test_missing_values_run df).
  unfold missing_values_verdict.
  rewrite negb_false_iff, missing_any_column, existsb_exists.
  split; intros [row [Hin H]]; exists row; (split; [exact Hin|]).
  - rewrite !orb_true_iff, !isnull_true_iff in H. tauto.
  - rewrite !orb_true_iff, !isnull_true_iff. tauto.
Qed.

(** * The rules on a collection of readings *)

(** Claim C3.  On every collection of readings the missing-value rule
    returns false exactly when some reading has an absent temperature or an
    absent humidity, and true exactly when no reading has. *)
Theorem test_missing_values_spec (rs : list SensorReading) :
  (returns test_missing_values (DataFrame_of rs) false
   <-> exists r, In r rs /\
         (reading_temperature r = None \/ reading_humidity r = None))
  /\
  (returns test_missing_values (DataFrame_of rs) true
   <-> ~ exists r, In r rs /\
         (reading_temperature r = None \/ reading_humidity r = None)).
Proof.
  pose proof (returns_value _ _ test_missing_values_run (DataFrame_of rs))
    as Hret.
  unfold missing_values_verdict in Hret.
  assert (Hex : (0 <? NullCounts_sum (isnull_sum (DataFrame_of rs)))%Z = true
                <-> exists r, In r rs /\
                      (reading_temperature r = None \/ reading_humidity r = None)).
  { rewrite missing_any_column, existsb_DataFrame_of, existsb_exists.
    split; intros [r [Hin H]]; exists r; (split; [exact Hin|]).
    - simpl in H. rewrite orb_false_r, orb_true_iff, !isnull_true_iff in H.
      exact H.
    - simpl. rewrite orb_false_r, orb_true_iff, !isnull_true_iff. exact H. }
  split.
  - rewrite Hret, negb_false_iff. exact Hex.
  - rewrite Hret, negb_true_iff, <- Hex, not_true_iff_false. reflexivity.
Qed.

Section Range.

(** A range rule on one numeric column, with bounds [lo] and [hi]. *)
Variable cell : SensorReading -> option Q.
Variables lo hi : Q.

Lemma out_of_range_exists (rs : list SensorReading) :
  existsb (out_of_range cell lo hi) rs = true
  <-> exists r t, In r rs /\ cell r = Some t /\ (t < lo \/ hi < t).
Proof.
  rewrite existsb_exists. unfold out_of_range. split.
  - intros [r [Hin H]]. destruct (cell r) as [t|] eqn:Ht; [|discriminate].
    exists r, t. rewrite orb_true_iff, !Qlt_bool_iff in H. auto.
  - intros [r [t [Hin [Ht H]]]]. exists r. split; [exact Hin|].
    rewrite Ht, orb_true_iff, !Qlt_bool_iff. exact H.
Qed.

Lemma out_of_range_none (rs : list SensorReading) :
  existsb (out_of_range cell lo hi) rs = false
  <-> forall r t, In r rs -> cell r = Some t -> lo <= t /\ t <= hi.
Proof.
  rewrite <- not_true_iff_false, out_of_range_exists. split.
  - intros Hno r t Hin Ht.
    destruct (Qlt_le_dec t lo) as [Hlo | Hlo];
      [exfalso; apply Hno; exists r, t; auto|].
    destruct (Qlt_le_dec hi t) as [Hhi | Hhi];
      [exfalso; apply Hno; exists r, t; auto|].
    split; assumption.
  - intros Hall [r [t [Hin [Ht [Hlt | Hlt]]]]];
      destruct (Hall r t Hin Ht) as [Hlo Hhi].
    + exact (Qlt_not_le _ _ Hlt Hlo).
    + exact (Qlt_not_le _ _ Hlt Hhi).
Qed.

End Range.

(** Claim C4.  On every collection of readings the temperature-range rule
    returns false exactly when some reading has a present temperature below
    0 or above 50; it returns true exactly when every present temperature
    lies in [0, 50], readings without a temperature being skipped. *)
Theorem test_temperature_range_spec (rs : list SensorReading) :
  (returns test_temperature_range (DataFrame_of rs) false
   <-> exists r t, In r rs /\ reading_temperature r = Some t /\
                   (t < 0 \/ 50 < t))
  /\
  (returns test_temperature_range (DataFrame_of rs) true
   <-> forall r t, In r rs -> reading_temperature r = Some t ->
                   0 <= t /\ t <= 50).
Proof.
  pose proof (returns_value _ _ test_temperature_range_run (DataFrame_of rs))
    as Hret.
  unfold temperature_range_verdict in Hret.
  split; rewrite Hret, existsb_DataFrame_of; simpl.
  - rewrite negb_false_iff. apply (out_of_range_exists reading_temperature 0 50).
  - rewrite negb_true_iff. apply (out_of_range_none reading_temperature 0 50).
Qed.

(** Claim C5.  On every collection of readings the humidity-range rule
    returns false exactly when some reading has a present humidity below 0
    or above 100; it returns true exactly when every present humidity lies
    in [0, 100], readings without a humidity being skipped. *)
Theorem test_humidity_range_spec (rs : list SensorReading) :
  (returns test_humidity_range (DataFrame_of rs) false
   <-> exists r h, In r rs /\ reading_humidity r = Some h /\
                   (h < 0 \/ 100 < h))
  /\
  (returns test_humidity_range (DataFrame_of rs) true
   <-> forall r h, In r rs -> reading_humidity r = Some h ->
                   0 <= h /\ h <= 100).
Proof.
  pose proof (returns_value _ _ test_humidity_range_run (DataFrame_of rs))
    as Hret.
  unfold humidity_range_verdict in Hret.
  split; rewrite Hret, existsb_DataFrame_of; simpl.
  - rewrite negb_false_iff. apply (out_of_range_exists reading_humidity 0 100).
  - rewrite negb_true_iff. apply (out_of_range_none reading_humidity 0 100).
Qed.

(** Claim C6.  On every collection of readings the duplicate-identifier
    rule returns false exactly when some sensor identifier occurs twice or
    more, and true exactly when the identifiers are pairwise distinct. *)
Theorem test_duplicates_spec (rs : list SensorReading) :
  (returns test_duplicates (DataFrame_of rs) false
   <-> exists id, (2 <= count_occ string_dec (map reading_id rs) id)%nat)
  /\
  (returns test_duplicates (DataFrame_of rs) true
   <-> NoDup (map reading_id rs)).
Proof.
  pose proof (returns_value _ _ test_duplicates_run (DataFrame_of rs))
    as Hret.
  unfold duplicates_verdict in Hret.
  split; rewrite Hret.
  - rewrite negb_false_iff. apply duplicated_iff.
  - rewrite negb_true_iff, <- not_true_iff_false, duplicated_iff.
    rewrite (NoDup_count_occ string_dec). split.
    + intros Hno id.
      destruct (le_lt_dec 2 (count_occ string_dec (map reading_id rs) id));
        [exfalso; apply Hno; exists id; assumption | lia].
    + intros Hall [id H]. specialize (Hall id). lia.
Qed.

(** The outlier mask row by row: the test on the doubles. *)
Lemma outlier_mask_rows
  (np_mean np_std : list PrimFloat.float -> PrimFloat.float)
  (df : DataFrame) :
  outlier_mask_with np_mean np_std df
  = map (fun r =>
           match temperature r with
           | Some t =>
               PrimFloat.ltb
                 (PrimFloat.mul (Binary64.of_Z 2)
                    (np_std (Binary64.column (dropna (map temperature df)))))
                 (PrimFloat.abs
                    (PrimFloat.sub (Binary64.of_Q t)
                       (np_mean
                          (Binary64.column (dropna (map temperature df))))))
           | None => false
           end) df.
Proof.
  unfold outlier_mask_with, Binary64.gt, Binary64.abs, Binary64.sub,
    Binary64.series.
  rewrite !map_map. apply map_ext. intro r.
  destruct (temperature r); reflexivity.
Qed.

(** Claim C1, as the code has it.  The sample of the outlier rule is the
    present temperatures of the collection, each once, as doubles.  With
    the values [np.mean] and [np.std] return on that sample, the rule
    selects the readings whose temperature is present and whose distance
    from the mean, computed in binary64, is strictly greater than twice the
    deviation, computed in binary64; a reading without a temperature is
    never selected; and the rule returns false exactly when some reading is
    selected, true otherwise.  This holds whatever the two library
    functions compute; in the program they are the binary64 mean and the
    binary64 population standard deviation, the root of the summed squared
    deviations over the count. *)
Theorem test_outliers_spec
  (np_mean np_std : list PrimFloat.float -> PrimFloat.float)
  (rs : list SensorReading) :
  let df := DataFrame_of rs in
  let temp_clean := Binary64.column (present_temperatures rs) in
  let mean := np_mean temp_clean in
  let std := np_std temp_clean in
  let flagged := fun r =>
    exists t, reading_temperature r = Some t
              /\ PrimFloat.ltb
                   (PrimFloat.mul (Binary64.of_Z 2) std)
                   (PrimFloat.abs (PrimFloat.sub (Binary64.of_Q t) mean))
                 = true in
  map Some (present_temperatures rs)
  = filter (fun c => negb (isnull c)) (map reading_temperature rs)
  /\
  (forall r, In (row_of_reading r)
                (select df (outlier_mask_with np_mean np_std df))
             <-> In r rs /\ flagged r)
  /\
  (returns (test_outliers_with np_mean np_std) df false
   <-> exists r, In r rs /\ flagged r)
  /\
  (returns (test_outliers_with np_mean np_std) df true
   <-> ~ exists r, In r rs /\ flagged r)
  /\
  test_outliers = test_outliers_with Binary64.mean Binary64.std
  /\
  Binary64.mean temp_clean
  = PrimFloat.div (Binary64.sum temp_clean) (Binary64.count temp_clean)
  /\
  Binary64.std temp_clean
  = PrimFloat.sqrt
      (PrimFloat.div
         (Binary64.sum
            (map (fun x =>
                    PrimFloat.mul
                      (PrimFloat.sub (Binary64.mean temp_clean) x)
                      (PrimFloat.sub (Binary64.mean temp_clean) x))
                 temp_clean))
         (Binary64.count temp_clean)).
Proof.
  intros df temp_clean mean std flagged. subst df.
  assert (Hrow : forall r,
    match temperature (row_of_reading r) with
    | Some t =>
        PrimFloat.ltb
          (PrimFloat.mul (Binary64.of_Z 2)
             (np_std (Binary64.column
                        (dropna (map temperature (DataFrame_of rs))))))
          (PrimFloat.abs
             (PrimFloat.sub (Binary64.of_Q t)
                (np_mean (Binary64.column
                            (dropna (map temperature (DataFrame_of rs)))))))
    | None => false
    end = true <-> flagged r).
  { intro r. rewrite temperature_column. fold temp_clean.
    fold mean. fold std. unfold flagged. simpl temperature.
    destruct (reading_temperature r) as [t|].
    - split; [intro H; exists t; auto | intros [t' [Ht H]]].
      injection Ht as <-. exact H.
    - split; [discriminate | intros [t [Ht _]]; discriminate]. }
  assert (Hsel : forall r,
            In (row_of_reading r)
               (select (DataFrame_of rs)
                  (outlier_mask_with np_mean np_std (DataFrame_of rs)))
            <-> In r rs /\ flagged r).
  { intro r. rewrite outlier_mask_rows, select_map, filter_In.
    rewrite In_DataFrame_of, Hrow. reflexivity. }
  assert (Hany :
    (0 <? List.length
            (select (DataFrame_of rs)
               (outlier_mask_with np_mean np_std (DataFrame_of rs))))%nat
    = true
    <-> exists r, In r rs /\ flagged r).
  { rewrite outlier_mask_rows, select_map, nonempty_filter.
    rewrite existsb_DataFrame_of, existsb_exists.
    split; intros [r [Hin H]]; exists r; (split; [exact Hin|]);
      apply Hrow; exact H. }
  pose proof (returns_value _ _ (test_outliers_with_run np_mean np_std)
                (DataFrame_of rs)) as Hret.
  unfold outliers_verdict_with in Hret.
  split; [apply dropna_filter|].
  split; [exact Hsel|].
  split; [rewrite Hret, negb_false_iff; exact Hany|].
  split; [rewrite Hret, negb_true_iff, <- Hany, not_true_iff_false;
          reflexivity|].
  repeat split.
Qed.

(** No reading of [boundary_readings] lies more than two population
    standard deviations from the mean: the last one lies at exactly two. *)
Lemma boundary_readings_exact (r : SensorReading) :
  In r boundary_readings -> ~ is_outlier boundary_readings r.
Proof.
  intros Hin H. apply (outlier_row_iff boundary_readings r Hin) in H.
  simpl in Hin.
  repeat (destruct Hin as [<- | Hin]; [vm_compute in H; discriminate|]).
  destruct Hin.
Qed.

(** Claim C1 as it reads, with the distance, the mean and the deviation as
    exact numbers, fails on [boundary_readings]: no reading lies more than
    two standard deviations from the mean, yet in binary64 the mean 10.2
    and the deviation 0.4 are rounded, the rule selects the last reading
    and returns false. *)
Lemma test_outliers_boundary :
  returns test_outliers (DataFrame_of boundary_readings) false
  /\ ~ (exists r, In r boundary_readings /\ is_outlier boundary_readings r).
Proof.
  split.
  - apply (returns_value _ _ test_outliers_run). vm_compute. reflexivity.
  - intros [r [Hin H]]. exact (boundary_readings_exact r Hin H).
Qed.

(** * The report *)

Lemma sum_bools_from (results : list bool) (acc : Z) :
  fold_left (fun a (b : bool) => (a + (if b then 1 else 0))%Z) results acc
  = (acc + Z.of_nat (count_occ bool_dec results true))%Z.
Proof.
  revert acc. induction results as [|b results IH]; intro acc; simpl.
  - lia.
  - rewrite IH. destruct b; simpl.
    + destruct (bool_dec true true); [lia | congruence].
    + destruct (bool_dec false true); [congruence | lia].
Qed.

Lemma sum_bools_count (results : list bool) :
  sum_bools results = Z.of_nat (count_occ bool_dec results true).
Proof. unfold sum_bools. rewrite sum_bools_from. lia. Qed.

(** The quality class of a success rate. *)
Lemma quality_of_rate (rate : Q) :
  exists q,
    (if Qle_bool 80 rate then quality_line GOOD
     else if Qle_bool 60 rate then quality_line NEEDS_IMPROVEMENT
     else quality_line POOR) = quality_line q
    /\ (q = GOOD <-> 80 <= rate)
    /\ (q = NEEDS_IMPROVEMENT <-> 60 <= rate /\ rate < 80)
    /\ (q = POOR <-> rate < 60).
Proof.
  destruct (Qle_bool 80 rate) eqn:E80; [|destruct (Qle_bool 60 rate) eqn:E60].
  - apply Qle_bool_iff in E80. exists GOOD.
    repeat split; intros; try congruence; try lra; try (exfalso; lra).
  - apply Qle_bool_iff in E60.
    assert (H80 : rate < 80).
    { apply Qnot_le_lt. intro H. apply Qle_bool_iff in H. congruence. }
    exists NEEDS_IMPROVEMENT.
    repeat split; intros; try congruence; try lra; try (exfalso; lra).
  - assert (H60 : rate < 60).
    { apply Qnot_le_lt. intro H. apply Qle_bool_iff in H. congruence. }
    exists POOR.
    repeat split; intros; try congruence; try lra; try (exfalso; lra).
Qed.

(** What the aggregator does when the division succeeds. *)
Lemma generate_report_nonempty (r : bool) (results : list bool) (w : World) :
  let total := Z.of_nat (List.length (r :: results)) in
  let passed := sum_bools (r :: results) in
  let rate := inject_Z passed / inject_Z total * 100 in
  generate_report (r :: results) w
  = (Ok tt,
     {| frame := frame w;
        stdout := stdout w ++
          [ [Text (nl ++ str_mul "=" 70)];
            [Text "📋 FINAL TEST REPORT"];
            [Text (str_mul "=" 70)];
            [Text "Total Tests: "; Int total];
            [Text "Passed: "; Int passed];
            [Text "Failed: "; Int (total - passed)];
            [Text "Success Rate: "; Fixed 1 (Some rate); Text "%"];
            [Text (nl ++ "📊 Data Quality Score: "); Fixed 1 (Some rate); Text "%"];
            (if Qle_bool 80 rate then quality_line GOOD
             else if Qle_bool 60 rate then quality_line NEEDS_IMPROVEMENT
             else quality_line POOR);
            [Text (str_mul "=" 70)] ] |}).
Proof.
  intros total passed rate.
  unfold generate_report, true_div.
  fold total. fold passed.
  assert (Hz : (total =? 0)%Z = false).
  { apply Z.eqb_neq. unfold total. simpl List.length. lia. }
  rewrite Hz.
  unfold bind, print, ret; cbn [frame stdout fst snd].
  change (inject_Z passed / inject_Z total * 100) with rate.
  destruct (Qle_bool 80 rate); [|destruct (Qle_bool 60 rate)];
    cbn [frame stdout]; repeat rewrite <- app_assoc; reflexivity.
Qed.

Lemma generate_report_empty (w : World) :
  fst (generate_report [] w) = Raise ZeroDivisionError.
Proof. reflexivity. Qed.

(** Claim C2.  On a non-empty sequence of results the aggregator reports
    the length as the total, the number of true entries as passed, their
    difference as failed and passed / total * 100 as the success rate, and
    prints GOOD exactly when the rate is at least 80, NEEDS IMPROVEMENT
    exactly when it is at least 60 and below 80, POOR exactly when it is
    below 60.  One pass of five gives 20 and POOR; five of five give 100
    and GOOD. *)
Theorem generate_report_spec :
  (forall (r : bool) (rest : list bool) (w : World),
     let results := r :: rest in
     let total := Z.of_nat (List.length results) in
     let passed := Z.of_nat (count_occ bool_dec results true) in
     let failed := (total - passed)%Z in
     let rate := inject_Z passed / inject_Z total * 100 in
     exists q,
       generate_report results w
       = (Ok tt, {| frame := frame w;
                    stdout := stdout w
                              ++ report_lines total passed failed rate q |})
       /\ (q = GOOD <-> 80 <= rate)
       /\ (q = NEEDS_IMPROVEMENT <-> 60 <= rate /\ rate < 80)
       /\ (q = POOR <-> rate < 60))
  /\
  (forall w, exists rate,
     rate == 20 /\
     generate_report [false; false; false; true; false] w
     = (Ok tt, {| frame := frame w;
                  stdout := stdout w ++ report_lines 5 1 4 rate POOR |}))
  /\
  (forall w, exists rate,
     rate == 100 /\
     generate_report [true; true; true; true; true] w
     = (Ok tt, {| frame := frame w;
                  stdout := stdout w ++ report_lines 5 5 0 rate GOOD |})).
Proof.
  split; [|split].
  - intros r rest w results total passed failed rate.
    pose proof (generate_report_nonempty r rest w) as Hrun.
    cbv zeta in Hrun. rewrite sum_bools_count in Hrun.
    fold results in Hrun. fold total passed in Hrun.
    fold failed rate in Hrun.
    destruct (quality_of_rate rate) as [q [Hline Hq]].
    exists q. split; [|exact Hq].
    rewrite Hrun, Hline. reflexivity.
  - intro w. exists (inject_Z 1 / inject_Z 5 * 100).
    split; [reflexivity|].
    rewrite generate_report_nonempty. reflexivity.
  - intro w. exists (inject_Z 5 / inject_Z 5 * 100).
    split; [reflexivity|].
    rewrite generate_report_nonempty. reflexivity.
Qed.

(** * The whole program *)

Lemma bind_Ok {A B : Type} (m : M A) (k : A -> M B) (w : World) (a : A) :
  fst (m w) = Ok a -> bind m k w = k a (snd (m w)).
Proof.
  unfold bind. destruct (m w) as [[a' | e] w']; simpl; congruence.
Qed.

Lemma load_data_run (w : World) :
  fst (load_data w) = Ok tt
  /\ frame (snd (load_data w)) = DataFrame_of (readings sensor_data).
Proof. split; reflexivity. Qed.

(** [main] hands the aggregator the five results of the rules on the
    hardcoded table, in the order the rules are run. *)
Lemma main_calls_report (w : World) :
  exists w',
    frame w' = DataFrame_of (readings sensor_data) /\
    main w = generate_report
               [ missing_values_verdict (DataFrame_of (readings sensor_data));
                 temperature_range_verdict (DataFrame_of (readings sensor_data));
                 humidity_range_verdict (DataFrame_of (readings sensor_data));
                 duplicates_verdict (DataFrame_of (readings sensor_data));
                 outliers_verdict (DataFrame_of (readings sensor_data)) ] w'.
Proof.
  unfold main.
  rewrite (bind_Ok _ _ _ _ (proj1 (load_data_run w))).
  pose proof (proj2 (load_data_run w)) as F0.
  set (w0 := snd (load_data w)) in *.
  rewrite (bind_Ok _ _ _ _ (proj1 (test_missing_values_run w0))).
  pose proof (proj2 (test_missing_values_run w0)) as F1.
  set (w1 := snd (test_missing_values w0)) in *.
  rewrite (bind_Ok _ _ _ _ (proj1 (test_temperature_range_run w1))).
  pose proof (proj2 (test_temperature_range_run w1)) as F2.
  set (w2 := snd (test_temperature_range w1)) in *.
  rewrite (bind_Ok _ _ _ _ (proj1 (test_humidity_range_run w2))).
  pose proof (proj2 (test_humidity_range_run w2)) as F3.
  set (w3 := snd (test_humidity_range w2)) in *.
  rewrite (bind_Ok _ _ _ _ (proj1 (test_duplicates_run w3))).
  pose proof (proj2 (test_duplicates_run w3)) as F4.
  set (w4 := snd (test_duplicates w3)) in *.
  rewrite (bind_Ok _ _ _ _ (proj1 (test_outliers_run w4))).
  pose proof (proj2 (test_outliers_run w4)) as F5.
  set (w5 := snd (test_outliers w4)) in *.
  exists w5. split; [congruence|].
  cbn [app]. repeat f_equal; congruence.
Qed.

Lemma generate_report_Ok (r : bool) (rest : list bool) (w : World) :
  fst (generate_report (r :: rest) w) = Ok tt.
Proof. rewrite generate_report_nonempty. reflexivity. Qed.

Lemma main_Ok (w : World) : fst (main w) = Ok tt.
Proof.
  destruct (main_calls_report w) as [w' [_ ->]]. apply generate_report_Ok.
Qed.

(** Claim C8.  The aggregator divides by the length of the results without
    a guard: on the empty sequence the division raises ZeroDivisionError,
    on a non-empty sequence the report is produced; [main] calls the
    aggregator with exactly five results, so the division succeeds there. *)
Theorem generate_report_division :
  (forall w, fst (generate_report [] w) = Raise ZeroDivisionError)
  /\
  (forall r rest w, fst (generate_report (r :: rest) w) = Ok tt)
  /\
  (forall w, exists results w',
     List.length results = 5%nat
     /\ main w = generate_report results w'
     /\ fst (main w) = Ok tt).
Proof.
  split; [exact generate_report_empty|]. split; [exact generate_report_Ok|].
  intro w. destruct (main_calls_report w) as [w' [_ Hmain]].
  eexists. exists w'. split; [|split; [exact Hmain | apply main_Ok]].
  reflexivity.
Qed.

(** Claim C9.  Whatever the world the program starts in, [main] returns and
    the exit status is 0.  This does not depend on what the checks find: on
    every frame each rule returns a boolean and raises nothing, and on every
    five results the aggregator returns. *)
Theorem main_exit_status :
  (forall w, exit_status (fst (main w)) = 0%Z)
  /\
  (forall rule, In rule rule_set ->
     forall w, exists b, fst (rule w) = Ok b)
  /\
  (forall r1 r2 r3 r4 r5 w,
     exit_status (fst (generate_report [r1; r2; r3; r4; r5] w)) = 0%Z).
Proof.
  split; [|split].
  - intro w. rewrite main_Ok. reflexivity.
  - intros rule Hin w. simpl in Hin.
    destruct Hin as [<- | [<- | [<- | [<- | [<- | []]]]]]; eexists.
    + apply test_missing_values_run.
    + apply test_temperature_range_run.
    + apply test_humidity_range_run.
    + apply test_duplicates_run.
    + apply test_outliers_run.
  - intros. rewrite generate_report_Ok. reflexivity.
Qed.

(** * Evaluating the rule set *)

Lemma rule_set_read_only :
  Forall (fun rule => exists verdict, read_only rule verdict) rule_set.
Proof.
  unfold rule_set. repeat constructor.
  - exists missing_values_verdict. exact test_missing_values_run.
  - exists temperature_range_verdict. exact test_temperature_range_run.
  - exists humidity_range_verdict. exact test_humidity_range_run.
  - exists duplicates_verdict. exact test_duplicates_run.
  - exists outliers_verdict. exact test_outliers_run.
Qed.

(** A sequence of read-only rules yields results that are a function of
    the frame, and leaves the frame alone. *)
Lemma run_rules_read_only (rules : list (M bool)) :
  Forall (fun rule => exists verdict, read_only rule verdict) rules ->
  exists verdicts : DataFrame -> list bool,
    forall w, fst (run_rules rules w) = Ok (verdicts (frame w))
              /\ frame (snd (run_rules rules w)) = frame w.
Proof.
  induction 1 as [|rule rest [v Hv] _ [vs Hvs]].
  - exists (fun _ => []). intro w. split; reflexivity.
  - exists (fun df => v df :: vs df). intro w.
    cbn [run_rules].
    rewrite (bind_Ok _ _ _ _ (proj1 (Hv w))).
    pose proof (proj2 (Hv w)) as F1.
    set (w1 := snd (rule w)) in *.
    rewrite (bind_Ok _ _ _ _ (proj1 (Hvs w1))).
    pose proof (proj2 (Hvs w1)) as F2.
    unfold ret; cbn [fst snd]. rewrite F1. split; [reflexivity|].
    congruence.
Qed.

(** [main] is: load the table, evaluate the rule set, report. *)
Lemma main_run_rules (w : World) :
  main w
  = (load_data ;; results <- run_rules rule_set ;; generate_report results) w.
Proof.
  unfold main, rule_set. cbn [run_rules]. unfold bind.
  destruct (load_data w) as [[[] | e] w0]; [|reflexivity].
  destruct (test_missing_values w0) as [[b1 | e] w1]; [|reflexivity].
  destruct (test_temperature_range w1) as [[b2 | e] w2]; [|reflexivity].
  destruct (test_humidity_range w2) as [[b3 | e] w3]; [|reflexivity].
  destruct (test_duplicates w3) as [[b4 | e] w4]; [|reflexivity].
  destruct (test_outliers w4) as [[b5 | e] w5]; reflexivity.
Qed.

(** Claim C10.  The rule set is what [main] evaluates between loading the
    table and reporting.  Evaluating the five rules a second time, in the
    world the first evaluation leaves, yields the same sequence of booleans;
    the results depend on the data only, not on what was printed before; and
    no rule changes the frame it is given. *)
Theorem rule_set_deterministic_read_only :
  (forall w,
     main w
     = (load_data ;; results <- run_rules rule_set ;; generate_report results)
         w)
  /\
  (forall w, exists bs w1 w2,
     run_rules rule_set w = (Ok bs, w1)
     /\ run_rules rule_set w1 = (Ok bs, w2)
     /\ frame w1 = frame w /\ frame w2 = frame w)
  /\
  (forall df out1 out2,
     fst (run_rules rule_set {| frame := df; stdout := out1 |})
     = fst (run_rules rule_set {| frame := df; stdout := out2 |}))
  /\
  (forall rule, In rule rule_set ->
     forall w, frame (snd (rule w)) = frame w).
Proof.
  destruct (run_rules_read_only rule_set rule_set_read_only) as [vs Hvs].
  split; [exact main_run_rules|]. split; [|split].
  - intro w.
    destruct (Hvs w) as [V1 F1].
    destruct (run_rules rule_set w) as [o1 w1] eqn:E1. simpl in V1, F1.
    destruct (Hvs w1) as [V2 F2].
    destruct (run_rules rule_set w1) as [o2 w2] eqn:E2. simpl in V2, F2.
    exists (vs (frame w)), w1, w2. subst o1 o2.
    rewrite F1. repeat split; congruence.
  - intros df out1 out2.
    rewrite (proj1 (Hvs _)), (proj1 (Hvs _)). reflexivity.
  - intros rule Hin w.
    pose proof (proj1 (Forall_forall _ _) rule_set_read_only rule Hin)
      as [v Hv].
    apply Hv.
Qed.

(** * The hardcoded table *)

Lemma sensor_data_outlier (r : SensorReading) :
  In r (readings sensor_data) ->
  (is_outlier (readings sensor_data) r <-> r = S004).
Proof.
  intro Hin. rewrite <- (outlier_row_iff (readings sensor_data) r Hin).
  simpl in Hin.
  repeat (destruct Hin as [<- | Hin];
          [vm_compute; split; congruence|]).
  destruct Hin.
Qed.

(** Claim C7.  On the table of eight readings the rules return, in the
    order [main] runs them, false, false, true, true, false: the outlier
    rule selects the one reading S004 (150.0) and not S006 (-50.0); [main]
    hands these five results to the aggregator, which reports two passed of
    five, a success rate of 40 and POOR. *)
Theorem sensor_data_report :
  let rs := readings sensor_data in
  let df := DataFrame_of rs in
  List.length rs = 8%nat
  /\ returns test_missing_values df false
  /\ returns test_temperature_range df false
  /\ returns test_humidity_range df true
  /\ returns test_duplicates df true
  /\ returns test_outliers df false
  /\ select df (outlier_mask df) = [row_of_reading S004]
  /\ (forall r, In r rs -> (is_outlier rs r <-> r = S004))
  /\ In S004 rs /\ is_outlier rs S004
  /\ In S006 rs /\ ~ is_outlier rs S006
  /\ exists pre rate,
       rate == 40
       /\ main initial_world
          = generate_report [false; false; true; true; false]
              {| frame := df; stdout := pre |}
       /\ main initial_world
          = (Ok tt, {| frame := df;
                       stdout := pre ++ report_lines 5 2 3 rate POOR |}).
Proof.
  intros rs df.
  split; [reflexivity|].
  split; [apply (returns_value _ _ test_missing_values_run); reflexivity|].
  split; [apply (returns_value _ _ test_temperature_range_run);
          vm_compute; reflexivity|].
  split; [apply (returns_value _ _ test_humidity_range_run);
          vm_compute; reflexivity|].
  split; [apply (returns_value _ _ test_duplicates_run);
          vm_compute; reflexivity|].
  split; [apply (returns_value _ _ test_outliers_run);
          vm_compute; reflexivity|].
  split; [vm_compute; reflexivity|].
  split; [exact sensor_data_outlier|].
  assert (H4 : In S004 (readings sensor_data)) by (vm_compute; tauto).
  assert (H6 : In S006 (readings sensor_data)) by (vm_compute; tauto).
  split; [exact H4|].
  split; [apply (sensor_data_outlier S004 H4); reflexivity|].
  split; [exact H6|].
  split; [intro H; apply (sensor_data_outlier S006 H6) in H; discriminate|].
  exists (firstn 28 (stdout (snd (main initial_world)))).
  exists (inject_Z 2 / inject_Z 5 * 100).
  split; [reflexivity|].
  split; vm_compute; reflexivity.
Qed.

(** * Binary64 and exact arithmetic on the hardcoded table *)

(** On the hardcoded table the doubles select the rows the exact figures
    would, in the outlier rule and in both range rules. *)
Lemma binary64_sensor_data :
  let df := DataFrame_of (readings sensor_data) in
  outlier_mask df = Exact.outlier_mask df
  /\ Binary64.range_mask (Binary64.series (map temperature df)) 0 50
     = mask_or (lt_scalar (map temperature df) 0)
               (gt_scalar (map temperature df) 50)
  /\ Binary64.range_mask (Binary64.series (map humidity df)) 0 100
     = mask_or (lt_scalar (map humidity df) 0)
               (gt_scalar (map humidity df) 100).
Proof. repeat split; vm_compute; reflexivity. Qed.

(** For every count of passed rules among up to 64 results the doubles fall
    on the same side of both thresholds as the exact success rate. *)
Lemma binary64_success_rate :
  forallb (fun total =>
    forallb (fun passed => Binary64.same_class (Z.of_nat passed) (Z.of_nat total))
            (seq 0 (S total)))
    (seq 1 64) = true.
Proof. vm_compute. reflexivity. Qed.

(** * Further properties of the report *)

(** The success rate against a threshold, as a comparison of integers. *)
Lemma rate_ge_iff (c p t : Z) :
  (0 < t)%Z ->
  (inject_Z c <= inject_Z p / inject_Z t * 100 <-> (c * t <= 100 * p)%Z).
Proof.
  intro Ht. destruct t as [|t|t]; try lia.
  unfold Qle, Qdiv, Qmult, Qinv, inject_Z; cbn -[Z.mul Pos.mul].
  rewrite ?Z.mul_1_r, ?Pos.mul_1_r, ?Pos.mul_1_l. lia.
Qed.

Lemma rate_le_iff (c p t : Z) :
  (0 < t)%Z ->
  (inject_Z p / inject_Z t * 100 <= inject_Z c <-> (100 * p <= c * t)%Z).
Proof.
  intro Ht. destruct t as [|t|t]; try lia.
  unfold Qle, Qdiv, Qmult, Qinv, inject_Z; cbn -[Z.mul Pos.mul].
  rewrite ?Z.mul_1_r, ?Pos.mul_1_r, ?Pos.mul_1_l. lia.
Qed.

Lemma count_true_le_length (results : list bool) :
  (count_occ bool_dec results true <= List.length results)%nat.
Proof. apply count_occ_bound. Qed.

Lemma count_true_all (results : list bool) :
  count_occ bool_dec results true = List.length results
  <-> forall b, In b results -> b = true.
Proof.
  induction results as [|b results IH]; simpl.
  - split; [intros _ b [] | reflexivity].
  - pose proof (count_true_le_length results) as Hle.
    destruct (bool_dec b true) as [-> | Hb].
    + split.
      * intros H c [<- | Hc]; [reflexivity|]. apply IH; [lia | exact Hc].
      * intro H. f_equal. apply IH. intros c Hc. apply H. right. exact Hc.
    + split; [lia|]. intro H. exfalso. apply Hb. apply H. left. reflexivity.
Qed.

Lemma count_true_none (results : list bool) :
  count_occ bool_dec results true = 0%nat
  <-> forall b, In b results -> b = false.
Proof.
  rewrite <- count_occ_not_In. split.
  - intros H b Hb. destruct b; [contradiction | reflexivity].
  - intros H Hin. specialize (H true Hin). discriminate.
Qed.

(** X1.  On the empty sequence the aggregator has printed the three lines
    of the report header when the division raises: the header stays on
    standard output, nothing follows it, and the frame is untouched. *)
Theorem generate_report_empty_output (w : World) :
  generate_report [] w
  = (Raise ZeroDivisionError,
     {| frame := frame w;
        stdout := stdout w ++
          [ [Text (nl ++ str_mul "=" 70)];
            [Text "📋 FINAL TEST REPORT"];
            [Text (str_mul "=" 70)] ] |}).
Proof.
  unfold generate_report, true_div, bind, print, raise; cbn [fst snd frame stdout].
  cbn [List.length Z.of_nat Z.eqb]. rewrite <- !app_assoc. reflexivity.
Qed.

(** X2.  The figures of a report on a non-empty sequence: passed and
    failed add up to the total, both lie between 0 and the total, the
    success rate lies between 0 and 100, it is 100 exactly when every
    result is true and 0 exactly when every result is false. *)
Theorem generate_report_figures (r : bool) (rest : list bool) (w : World) :
  let results := r :: rest in
  exists total passed failed rate q,
    generate_report results w
    = (Ok tt, {| frame := frame w;
                 stdout := stdout w
                           ++ report_lines total passed failed rate q |})
    /\ total = Z.of_nat (List.length results)
    /\ (passed + failed = total)%Z
    /\ (0 <= passed <= total)%Z
    /\ (0 <= failed <= total)%Z
    /\ 0 <= rate /\ rate <= 100
    /\ (rate == 100 <-> forall b, In b results -> b = true)
    /\ (rate == 0 <-> forall b, In b results -> b = false).
Proof.
  intro results.
  pose proof (generate_report_nonempty r rest w) as Hrun.
  cbv zeta in Hrun. rewrite sum_bools_count in Hrun. fold results in Hrun.
  set (total := Z.of_nat (List.length results)) in *.
  set (passed := Z.of_nat (count_occ bool_dec results true)) in *.
  set (rate := inject_Z passed / inject_Z total * 100) in *.
  destruct (quality_of_rate rate) as [q [Hline _]].
  pose proof (count_true_le_length results) as Hle.
  assert (Ht : (0 < total)%Z) by (unfold total, results; simpl List.length; lia).
  assert (Hp : (0 <= passed <= total)%Z) by (unfold passed, total; lia).
  assert (H0 : 0 <= rate) by (apply (rate_ge_iff 0 passed total Ht); lia).
  assert (H100 : rate <= 100) by (apply (rate_le_iff 100 passed total Ht); lia).
  exists total, passed, (total - passed)%Z, rate, q.
  split; [rewrite Hrun, Hline; reflexivity|].
  split; [reflexivity|]. split; [lia|]. split; [exact Hp|]. split; [lia|].
  split; [exact H0|]. split; [exact H100|]. split.
  - rewrite <- count_true_all. split.
    + intro Heq. assert (H : 100 <= rate) by (rewrite Heq; apply Qle_refl).
      apply (rate_ge_iff 100 passed total Ht) in H. unfold passed, total in *. lia.
    + intro Heq. apply Qle_antisym; [exact H100|].
      apply (rate_ge_iff 100 passed total Ht). unfold passed, total. lia.
  - rewrite <- count_true_none. split.
    + intro Heq. assert (H : rate <= 0) by (rewrite Heq; apply Qle_refl).
      apply (rate_le_iff 0 passed total Ht) in H. unfold passed in *. lia.
    + intro Heq. apply Qle_antisym; [|exact H0].
      apply (rate_le_iff 0 passed total Ht). unfold passed. lia.
Qed.

(** X3.  The quality class in whole numbers: GOOD exactly when at least
    four fifths of the results are true, POOR exactly when fewer than three
    fifths are; with the five results [main] passes, GOOD is four or five
    passed rules, NEEDS IMPROVEMENT exactly three, POOR two or fewer. *)
Theorem generate_report_classes :
  (forall (r : bool) (rest : list bool) (w : World),
     let results := r :: rest in
     let total := Z.of_nat (List.length results) in
     let passed := Z.of_nat (count_occ bool_dec results true) in
     let rate := inject_Z passed / inject_Z total * 100 in
     exists q,
       generate_report results w
       = (Ok tt, {| frame := frame w;
                    stdout := stdout w ++ report_lines total passed
                                            (total - passed) rate q |})
       /\ (q = GOOD <-> (4 * total <= 5 * passed)%Z)
       /\ (q = NEEDS_IMPROVEMENT
           <-> (3 * total <= 5 * passed < 4 * total)%Z)
       /\ (q = POOR <-> (5 * passed < 3 * total)%Z))
  /\
  (forall (r1 r2 r3 r4 r5 : bool) (w : World),
     let results := [r1; r2; r3; r4; r5] in
     let passed := Z.of_nat (count_occ bool_dec results true) in
     let rate := inject_Z passed / 5 * 100 in
     exists q,
       generate_report results w
       = (Ok tt, {| frame := frame w;
                    stdout := stdout w ++ report_lines 5 passed
                                            (5 - passed) rate q |})
       /\ (q = GOOD <-> (4 <= passed)%Z)
       /\ (q = NEEDS_IMPROVEMENT <-> passed = 3%Z)
       /\ (q = POOR <-> (passed <= 2)%Z)).
Proof.
  assert (Hgen : forall (r : bool) (rest : list bool) (w : World),
     let results := r :: rest in
     let total := Z.of_nat (List.length results) in
     let passed := Z.of_nat (count_occ bool_dec results true) in
     let rate := inject_Z passed / inject_Z total * 100 in
     exists q,
       generate_report results w
       = (Ok tt, {| frame := frame w;
                    stdout := stdout w ++ report_lines total passed
                                            (total - passed) rate q |})
       /\ (q = GOOD <-> (4 * total <= 5 * passed)%Z)
       /\ (q = NEEDS_IMPROVEMENT
           <-> (3 * total <= 5 * passed < 4 * total)%Z)
       /\ (q = POOR <-> (5 * passed < 3 * total)%Z)).
  { intros r rest w results total passed rate.
    pose proof (generate_report_nonempty r rest w) as Hrun.
    cbv zeta in Hrun. rewrite sum_bools_count in Hrun. fold results in Hrun.
    fold total passed in Hrun. fold rate in Hrun.
    destruct (quality_of_rate rate) as [q [Hline [HG [HN HP]]]].
    assert (Ht : (0 < total)%Z)
      by (unfold total, results; simpl List.length; lia).
    pose proof (rate_ge_iff 80 passed total Ht) as H80.
    pose proof (rate_ge_iff 60 passed total Ht) as H60.
    fold rate in H80, H60. change (inject_Z 80) with 80 in H80.
    change (inject_Z 60) with 60 in H60.
    assert (L80 : rate < 80 <-> ~ 80 <= rate)
      by (split; [apply Qlt_not_le | apply Qnot_le_lt]).
    assert (L60 : rate < 60 <-> ~ 60 <= rate)
      by (split; [apply Qlt_not_le | apply Qnot_le_lt]).
    exists q. split; [rewrite Hrun, Hline; reflexivity|].
    rewrite HG, HN, HP, L80, L60, H80, H60. repeat split; lia. }
  split; [exact Hgen|].
  intros r1 r2 r3 r4 r5 w results passed rate.
  destruct (Hgen r1 [r2; r3; r4; r5] w) as [q [Hrun [HG [HN HP]]]].
  exists q. split; [exact Hrun|].
  fold results in HG, HN, HP. fold passed in HG, HN, HP.
  change (Z.of_nat (List.length results)) with 5%Z in HG, HN, HP.
  rewrite HG, HN, HP. repeat split; lia.
Qed.

(** X4.  The report does not depend on the order of the results: two
    sequences that are permutations of each other give the same output and
    the same outcome, the empty one included. *)
Theorem generate_report_permutation (results results' : list bool)
  (w : World) :
  Permutation results results' ->
  generate_report results w = generate_report results' w.
Proof.
  intro Hperm. unfold generate_report.
  rewrite !sum_bools_count.
  rewrite (Permutation_length Hperm).
  rewrite (proj1 (Permutation_count_occ bool_dec results results') Hperm true).
  reflexivity.
Qed.

Lemma generate_report_permutation_witness :
  Permutation [true; false; true] [false; true; true]
  /\ generate_report [true; false; true] initial_world
     = generate_report [false; true; true] initial_world.
Proof.
  split; [apply perm_swap|].
  apply (generate_report_permutation
           [true; false; true] [false; true; true] initial_world).
  apply perm_swap.
Defined.

(** * The order of the readings *)

Lemma existsb_Permutation {A : Type} (p : A -> bool) (l l' : list A) :
  Permutation l l' -> existsb p l = existsb p l'.
Proof.
  intro Hperm.
  destruct (existsb p l) eqn:E; symmetry.
  - apply existsb_exists in E. destruct E as [x [Hin Hp]].
    apply existsb_exists. exists x. split; [|exact Hp].
    apply (Permutation_in _ Hperm). exact Hin.
  - apply not_true_iff_false. intro E'. apply existsb_exists in E'.
    destruct E' as [x [Hin Hp]].
    assert (E'' : existsb p l = true).
    { apply existsb_exists. exists x. split; [|exact Hp].
      apply (Permutation_in _ (Permutation_sym Hperm)). exact Hin. }
    congruence.
Qed.

Lemma existsb_pointwise {A : Type} (p q : A -> bool) (l : list A) :
  (forall x, p x = q x) -> existsb p l = existsb q l.
Proof.
  intro H. induction l as [|x l IH]; simpl; [reflexivity|].
  rewrite H, IH. reflexivity.
Qed.

Lemma occurrences_Permutation (k : object) (keys keys' : list object) :
  Permutation keys keys' -> occurrences k keys = occurrences k keys'.
Proof.
  intro Hperm. unfold occurrences. apply Permutation_length.
  induction Hperm; simpl.
  - constructor.
  - destruct (object_eqb k x); [constructor|]; assumption.
  - destruct (object_eqb k x), (object_eqb k y);
      try apply perm_swap; try constructor; apply Permutation_refl.
  - eapply Permutation_trans; eassumption.
Qed.

Lemma verdicts_Permutation (df df' : DataFrame) :
  Permutation df df' ->
  missing_values_verdict df = missing_values_verdict df'
  /\ temperature_range_verdict df = temperature_range_verdict df'
  /\ humidity_range_verdict df = humidity_range_verdict df'
  /\ duplicates_verdict df = duplicates_verdict df'.
Proof.
  intro Hperm.
  unfold missing_values_verdict, temperature_range_verdict,
    humidity_range_verdict, duplicates_verdict.
  rewrite !missing_any_column.
  repeat split; f_equal; try (apply existsb_Permutation; exact Hperm).
  rewrite (existsb_Permutation _ _ _ Hperm).
  apply existsb_pointwise. intro r.
  rewrite (occurrences_Permutation (sensor_id r) _ _
             (Permutation_map sensor_id Hperm)).
  reflexivity.
Qed.

(** X13.  The missing-value rule, the two range rules and the duplicate
    rule do not depend on the order of the readings: on two collections
    that are permutations of each other each of them returns the same
    boolean. *)
Theorem rule_set_permutation (rs rs' : list SensorReading) :
  Permutation rs rs' ->
  forall b,
    (returns test_missing_values (DataFrame_of rs) b
     <-> returns test_missing_values (DataFrame_of rs') b)
    /\ (returns test_temperature_range (DataFrame_of rs) b
        <-> returns test_temperature_range (DataFrame_of rs') b)
    /\ (returns test_humidity_range (DataFrame_of rs) b
        <-> returns test_humidity_range (DataFrame_of rs') b)
    /\ (returns test_duplicates (DataFrame_of rs) b
        <-> returns test_duplicates (DataFrame_of rs') b).
Proof.
  intros Hperm b.
  assert (Hdf : Permutation (DataFrame_of rs) (DataFrame_of rs'))
    by (apply Permutation_map; exact Hperm).
  destruct (verdicts_Permutation _ _ Hdf) as [H1 [H2 [H3 H4]]].
  rewrite !(returns_value _ _ test_missing_values_run), H1.
  rewrite !(returns_value _ _ test_temperature_range_run), H2.
  rewrite !(returns_value _ _ test_humidity_range_run), H3.
  rewrite !(returns_value _ _ test_duplicates_run), H4.
  repeat split; auto.
Qed.

Lemma rule_set_permutation_witness :
  Permutation [S004; S006] [S006; S004]
  /\ (returns test_temperature_range (DataFrame_of [S004; S006]) false
      <-> returns test_temperature_range (DataFrame_of [S006; S004]) false).
Proof.
  split; [apply perm_swap|].
  apply (rule_set_permutation [S004; S006] [S006; S004] (perm_swap _ _ _)
           false).
Defined.

(** The outlier rule is not among them: its sums run in table order and
    round on the way, so the order of the readings can decide the result. *)
Lemma test_outliers_order :
  Permutation order_readings (rev order_readings)
  /\ returns test_outliers (DataFrame_of order_readings) true
  /\ returns test_outliers (DataFrame_of (rev order_readings)) false.
Proof.
  split; [apply Permutation_rev|].
  split; apply (returns_value _ _ test_outliers_run); vm_compute; reflexivity.
Qed.

(** * What the rules print *)

(** Two worlds with the same lines, appended in different groupings. *)
Ltac same_output :=
  cbn [fst snd frame stdout]; repeat rewrite <- app_assoc; reflexivity.

Lemma filter_nonempty_iff {A : Type} (p : A -> bool) (l : list A) :
  filter p l <> [] <-> existsb p l = true.
Proof.
  rewrite <- nonempty_filter, Nat.ltb_lt.
  destruct (filter p l); simpl; split; intro H; try congruence; lia.
Qed.

Lemma filter_empty_iff {A : Type} (p : A -> bool) (l : list A) :
  filter p l = [] <-> existsb p l = false.
Proof.
  rewrite <- not_true_iff_false, <- filter_nonempty_iff.
  destruct (filter p l); split; intro H; try congruence.
  exfalso. apply H. discriminate.
Qed.

(** X8.  The diagnostics of the missing-value rule.  After the header and
    the null counts of the four columns, the rule either passes, and then
    no row has a null cell, or fails and prints the identifiers of exactly
    the rows with a null cell, in table order; the list it prints on
    failure is never empty. *)
Theorem test_missing_values_output (w : World) :
  let df := frame w in
  let affected := map sensor_id (filter row_has_null df) in
  let header := [ [Text (nl ++ "🔍 TEST 1: Missing Value Detection")];
                  [Text (str_mul "-" 70)];
                  [Counts (isnull_sum df)] ] in
  (affected = []
   /\ test_missing_values w
      = (Ok true,
         {| frame := df;
            stdout := stdout w ++ header
              ++ [[Text (nl ++ "✅ TEST PASSED: No missing values")]] |}))
  \/
  (affected <> []
   /\ test_missing_values w
      = (Ok false,
         {| frame := df;
            stdout := stdout w ++ header
              ++ [ [Text (nl ++ "❌ TEST FAILED: Missing values detected")];
                   [Text "   Affected Sensors: "; ObjList affected] ] |})).
Proof.
  intros df affected header.
  unfold test_missing_values, bind, read_frame, print, ret;
    cbn [fst snd frame stdout].
  fold df. rewrite missing_any_column. fold row_has_null.
  unfold isnull_any. fold row_has_null. rewrite select_map. fold affected.
  destruct (existsb row_has_null df) eqn:E.
  - right. split.
    + unfold affected. intro Hnil. apply map_eq_nil in Hnil.
      apply filter_empty_iff in Hnil. congruence.
    + unfold header. same_output.
  - left. split.
    + unfold affected. apply filter_empty_iff in E. rewrite E. reflexivity.
    + unfold header. same_output.
Qed.

(** The output of a range rule, for the column and the bounds it tests. *)
Lemma cell_out_of_range_iff (cell : Row -> float64) (lo hi : Q)
  (df : DataFrame) (row : Row) :
  In row (filter (cell_out_of_range cell lo hi) df)
  <-> In row df /\ exists q, cell row = Some q /\ (q < lo \/ hi < q).
Proof.
  rewrite filter_In. unfold cell_out_of_range.
  split; intros [Hin H]; (split; [exact Hin|]).
  - destruct (cell row) as [q|]; [|discriminate].
    exists q. rewrite orb_true_iff, !Qlt_bool_iff in H. auto.
  - destruct H as [q [-> H]]. rewrite orb_true_iff, !Qlt_bool_iff. exact H.
Qed.

(** X9.  The diagnostics of the two range rules.  Each rule prints its
    header and then either passes, when no row is out of range, or fails
    and prints one line per offending row, in table order, with the
    identifier and the value; the offending rows are exactly those whose
    value is present and below the lower or above the upper bound. *)
Theorem test_range_output (w : World) :
  let df := frame w in
  let hot := filter (cell_out_of_range temperature 0 50) df in
  let wet := filter (cell_out_of_range humidity 0 100) df in
  (forall row, In row hot
     <-> In row df /\ exists q, temperature row = Some q /\ (q < 0 \/ 50 < q))
  /\
  (forall row, In row wet
     <-> In row df /\ exists q, humidity row = Some q /\ (q < 0 \/ 100 < q))
  /\
  test_temperature_range w
  = (Ok (match hot with [] => true | _ => false end),
     {| frame := df;
        stdout := stdout w
          ++ [ [Text (nl ++ "🔍 TEST 2: Temperature Range Validation (0-50°C)")];
               [Text (str_mul "-" 70)] ]
          ++ match hot with
             | [] => [[Text "✅ TEST PASSED: All temperatures valid"]]
             | _ => [Text "❌ TEST FAILED: Invalid temperature readings"]
                    :: map (sensor_line temperature "°C") hot
             end |})
  /\
  test_humidity_range w
  = (Ok (match wet with [] => true | _ => false end),
     {| frame := df;
        stdout := stdout w
          ++ [ [Text (nl ++ "🔍 TEST 3: Humidity Range Validation (0-100%)")];
               [Text (str_mul "-" 70)] ]
          ++ match wet with
             | [] => [[Text "✅ TEST PASSED: All humidity values valid"]]
             | _ => [Text "❌ TEST FAILED: Invalid humidity readings"]
                    :: map (sensor_line humidity "%") wet
             end |}).
Proof.
  intros df hot wet.
  split; [intro row; apply cell_out_of_range_iff|].
  split; [intro row; apply cell_out_of_range_iff|].
  split.
  - unfold test_temperature_range, bind, read_frame; cbn [fst snd frame].
    fold df. unfold lt_scalar, gt_scalar.
    rewrite !map_map, mask_or_map, select_map.
    change (filter _ df) with hot.
    destruct hot as [|row hot'].
    + unfold print, ret; cbn [List.length Nat.ltb Nat.leb]. same_output.
    + cbn [List.length Nat.ltb Nat.leb]. unfold print at 1 2 3.
      cbn [fst snd frame stdout]. rewrite for_each_print.
      unfold ret. same_output.
  - unfold test_humidity_range, bind, read_frame; cbn [fst snd frame].
    fold df. unfold lt_scalar, gt_scalar.
    rewrite !map_map, mask_or_map, select_map.
    change (filter _ df) with wet.
    destruct wet as [|row wet'].
    + unfold print, ret; cbn [List.length Nat.ltb Nat.leb]. same_output.
    + cbn [List.length Nat.ltb Nat.leb]. unfold print at 1 2 3.
      cbn [fst snd frame stdout]. rewrite for_each_print.
      unfold ret. same_output.
Qed.

Lemma object_eqb_eq (a b : object) : object_eqb a b = true <-> a = b.
Proof.
  destruct a as [x|], b as [y|]; simpl; try (split; congruence).
  rewrite String.eqb_eq. split; congruence.
Qed.

Lemma occurrences_le_length (k : object) (keys : list object) :
  (occurrences k keys <= List.length keys)%nat.
Proof. unfold occurrences. apply filter_length_le. Qed.

(** Selecting the duplicated rows keeps every occurrence of a duplicated
    identifier. *)
Lemma occurrences_duplicated (df l : list Row) (k : object) :
  (2 <= occurrences k (map sensor_id df))%nat ->
  occurrences k (map sensor_id (filter (row_duplicated df) l))
  = occurrences k (map sensor_id l).
Proof.
  intro Hk. unfold occurrences.
  induction l as [|r l IH]; [reflexivity|].
  cbn [filter map].
  destruct (object_eqb k (sensor_id r)) eqn:E.
  - apply object_eqb_eq in E.
    assert (Hdup : row_duplicated df r = true).
    { unfold row_duplicated. rewrite <- E. apply Nat.leb_le. exact Hk. }
    rewrite Hdup. cbn [map filter]. rewrite <- E.
    assert (Hrefl : object_eqb k k = true) by (apply object_eqb_eq; reflexivity).
    rewrite Hrefl. cbn [List.length]. f_equal. exact IH.
  - destruct (row_duplicated df r); cbn [map filter]; [rewrite E|]; exact IH.
Qed.

(** X10.  The diagnostics of the duplicate rule.  The rule prints its
    header and then either passes, when no identifier is repeated, or fails
    and prints the frame of all rows with a repeated identifier, in table
    order.  That frame never has a single row: it has at least two, and
    every row in it has its identifier at least twice in it. *)
Theorem test_duplicates_output (w : World) :
  let df := frame w in
  let duplicates := filter (row_duplicated df) df in
  let header := [ [Text (nl ++ "🔍 TEST 4: Duplicate Sensor ID Detection")];
                  [Text (str_mul "-" 70)] ] in
  (forall row, In row duplicates ->
     (2 <= occurrences (sensor_id row) (map sensor_id duplicates))%nat)
  /\
  ((duplicates = []
    /\ test_duplicates w
       = (Ok true,
          {| frame := df;
             stdout := stdout w ++ header
               ++ [[Text "✅ TEST PASSED: No duplicates"]] |}))
   \/
   ((2 <= List.length duplicates)%nat
    /\ test_duplicates w
       = (Ok false,
          {| frame := df;
             stdout := stdout w ++ header
               ++ [ [Text "❌ TEST FAILED: Duplicate sensor IDs found"];
                    [Frame duplicates] ] |}))).
Proof.
  intros df duplicates header.
  assert (Hrows : forall row, In row duplicates ->
     (2 <= occurrences (sensor_id row) (map sensor_id duplicates))%nat).
  { intros row Hin. unfold duplicates in *. apply filter_In in Hin.
    destruct Hin as [_ Hdup]. unfold row_duplicated in Hdup.
    apply Nat.leb_le in Hdup.
    rewrite (occurrences_duplicated df df _ Hdup). exact Hdup. }
  split; [exact Hrows|].
  unfold test_duplicates, bind, read_frame; cbn [fst snd frame].
  fold df. unfold duplicated_keep_false. rewrite map_map, select_map.
  change (filter _ df) with duplicates.
  destruct duplicates as [|row rest] eqn:E.
  - left. split; [reflexivity|]. unfold print, ret, header.
    cbn [List.length Nat.ltb Nat.leb]. same_output.
  - right. split.
    + pose proof (Hrows row (or_introl eq_refl)) as H2.
      pose proof (occurrences_le_length (sensor_id row)
                    (map sensor_id (row :: rest))) as Hle.
      rewrite length_map in Hle. lia.
    + unfold print, ret, header. cbn [List.length Nat.ltb Nat.leb].
      same_output.
Qed.

Lemma gt_absent (cells : list float64) (m s : PrimFloat.float) :
  Pandas.dropna cells = [] ->
  Binary64.gt (Binary64.abs (Binary64.sub (Binary64.series cells) m)) s
  = map (fun _ => false) cells.
Proof.
  unfold Binary64.gt, Binary64.abs, Binary64.sub, Binary64.series.
  rewrite !map_map.
  induction cells as [|c cells IH]; [reflexivity|].
  destruct c as [q|]; simpl; [discriminate|].
  intro H. rewrite (IH H). reflexivity.
Qed.

Lemma select_none {A : Type} (l : list A) :
  select l (map (fun _ => false) l) = [].
Proof. induction l as [|x l IH]; simpl; [reflexivity | exact IH]. Qed.

(** X11.  The diagnostics of the outlier rule.  The rule prints its header,
    the mean and the standard deviation [np.mean] and [np.std] return on
    the present temperatures, and then either passes or warns and prints
    one line per selected row, in table order.  On a frame without a
    present temperature, the empty frame included, no row is selected and
    the rule passes; the program's statistics are then NaN (0 / 0). *)
Theorem test_outliers_output
  (np_mean np_std : list PrimFloat.float -> PrimFloat.float) (w : World) :
  let df := frame w in
  let temp_clean := Binary64.column (dropna (map temperature df)) in
  let outliers := select df (outlier_mask_with np_mean np_std df) in
  let header :=
    [ [Text (nl ++ "🔍 TEST 5: Outlier Detection (Temperature)")];
      [Text (str_mul "-" 70)];
      [Text "Mean Temperature: "; FixedDouble 2 (np_mean temp_clean);
       Text "°C"];
      [Text "Standard Deviation: "; FixedDouble 2 (np_std temp_clean);
       Text "°C"] ] in
  test_outliers_with np_mean np_std w
  = (Ok (match outliers with [] => true | _ => false end),
     {| frame := df;
        stdout := stdout w ++ header
          ++ match outliers with
             | [] => [[Text (nl ++ "✅ TEST PASSED: No outliers")]]
             | _ => [Text (nl ++ "⚠️  WARNING: Outliers detected")]
                    :: map (sensor_line temperature "°C") outliers
             end |})
  /\ (dropna (map temperature df) = [] ->
      outliers = []
      /\ Binary64.mean temp_clean = PrimFloat.nan
      /\ Binary64.std temp_clean = PrimFloat.nan).
Proof.
  intros df temp_clean outliers header.
  split.
  - unfold test_outliers_with, bind, read_frame; cbn [fst snd frame].
    fold df. fold (outlier_mask_with np_mean np_std df). fold outliers.
    fold temp_clean.
    destruct outliers as [|row rest].
    + unfold print, ret, header. cbn [List.length Nat.ltb Nat.leb].
      same_output.
    + cbn [List.length Nat.ltb Nat.leb]. unfold print at 1 2 3 4 5.
      cbn [fst snd frame stdout]. rewrite for_each_print.
      unfold ret, header. same_output.
  - intro Hnil. unfold temp_clean, outliers. rewrite Hnil.
    split; [|split; reflexivity].
    unfold outlier_mask_with. rewrite (gt_absent _ _ _ Hnil), map_map.
    apply select_none.
Qed.

(** * Rules on a frame made of two parts *)

Lemma occurrences_app (k : object) (l1 l2 : list object) :
  occurrences k (l1 ++ l2) = (occurrences k l1 + occurrences k l2)%nat.
Proof. unfold occurrences. rewrite filter_app, length_app. reflexivity. Qed.

(** X12.  The missing-value rule and the two range rules pass on the
    concatenation of two frames exactly when they pass on both; the
    duplicate rule can only pass on the concatenation when it passes on
    both.  (The outlier rule has no such property: its statistics are those
    of the whole frame.) *)
Theorem rules_on_concatenation (df1 df2 : DataFrame) :
  (returns test_missing_values (df1 ++ df2) true
   <-> returns test_missing_values df1 true
       /\ returns test_missing_values df2 true)
  /\
  (returns test_temperature_range (df1 ++ df2) true
   <-> returns test_temperature_range df1 true
       /\ returns test_temperature_range df2 true)
  /\
  (returns test_humidity_range (df1 ++ df2) true
   <-> returns test_humidity_range df1 true
       /\ returns test_humidity_range df2 true)
  /\
  (returns test_duplicates (df1 ++ df2) true ->
   returns test_duplicates df1 true /\ returns test_duplicates df2 true).
Proof.
  rewrite !(returns_value _ _ test_missing_values_run),
          !(returns_value _ _ test_temperature_range_run),
          !(returns_value _ _ test_humidity_range_run),
          !(returns_value _ _ test_duplicates_run).
  unfold missing_values_verdict, temperature_range_verdict,
    humidity_range_verdict, duplicates_verdict.
  rewrite !missing_any_column, !existsb_app, !negb_orb, !andb_true_iff.
  split; [reflexivity|]. split; [reflexivity|]. split; [reflexivity|].
  rewrite !negb_true_iff. intros [H1 H2].
  split; apply not_true_iff_false; intro Hex; apply existsb_exists in Hex;
    destruct Hex as [r [Hin Hdup]]; apply Nat.leb_le in Hdup.
  - apply not_true_iff_false in H1. apply H1. apply existsb_exists.
    exists r. split; [exact Hin|]. apply Nat.leb_le.
    rewrite map_app, occurrences_app. lia.
  - apply not_true_iff_false in H2. apply H2. apply existsb_exists.
    exists r. split; [exact Hin|]. apply Nat.leb_le.
    rewrite map_app, occurrences_app. lia.
Qed.

(** * The output of the whole program *)

Lemma bind_read_frame {B : Type} (k : DataFrame -> M B) (w : World) :
  bind read_frame k w = k (frame w) w.
Proof. reflexivity. Qed.

Lemma bind_print {B : Type} (l : Line) (k : unit -> M B) (w : World) :
  bind (print l) k w = k tt {| frame := frame w; stdout := stdout w ++ [l] |}.
Proof. reflexivity. Qed.

Lemma bind_for_each_print {A B : Type} (h : A -> Line) (l : list A)
  (k : unit -> M B) (w : World) :
  bind (for_each l (fun x => print (h x))) k w
  = k tt {| frame := frame w; stdout := stdout w ++ map h l |}.
Proof. unfold bind. rewrite for_each_print. reflexivity. Qed.

(** One step of a run: the head of a sequence is a read of the frame, a
    [print] or a loop of prints. *)
Ltac run_step :=
  first [ rewrite bind_read_frame
        | rewrite bind_print
        | rewrite bind_for_each_print ];
  cbv beta; cbn [frame stdout].

Ltac same_world :=
  unfold ret, print; cbn [fst snd frame stdout]; f_equal;
  repeat rewrite <- app_assoc; reflexivity.

Lemma load_data_appends (w : World) :
  load_data w
  = (Ok tt, {| frame := DataFrame_of (readings sensor_data);
               stdout := stdout w ++ output_on load_data (frame w) |}).
Proof.
  unfold output_on, load_data, bind, new_frame, read_frame, print, ret.
  cbn [fst snd frame stdout]. f_equal. f_equal.
  rewrite <- !app_assoc. reflexivity.
Qed.

Lemma test_missing_values_appends : appends test_missing_values.
Proof.
  intro w. unfold output_on, test_missing_values. repeat run_step.
  destruct (0 <? _)%Z; repeat run_step; same_world.
Qed.

Lemma test_temperature_range_appends : appends test_temperature_range.
Proof.
  intro w. unfold output_on, test_temperature_range. repeat run_step.
  destruct (0 <? _)%nat; repeat run_step; same_world.
Qed.

Lemma test_humidity_range_appends : appends test_humidity_range.
Proof.
  intro w. unfold output_on, test_humidity_range. repeat run_step.
  destruct (0 <? _)%nat; repeat run_step; same_world.
Qed.

Lemma test_duplicates_appends : appends test_duplicates.
Proof.
  intro w. unfold output_on, test_duplicates. repeat run_step.
  destruct (0 <? _)%nat; repeat run_step; same_world.
Qed.

Lemma test_outliers_appends : appends test_outliers.
Proof.
  intro w. unfold output_on, test_outliers, test_outliers_with.
  repeat run_step.
  destruct (0 <? _)%nat; repeat run_step; same_world.
Qed.

Lemma generate_report_appends (r : bool) (rest : list bool) :
  appends (generate_report (r :: rest)).
Proof.
  intro w. unfold output_on. rewrite !generate_report_nonempty.
  cbn [fst snd frame stdout]. reflexivity.
Qed.

(** A rule run in a world: its result and the world it leaves. *)
Lemma rule_run (rule : M bool) (verdict : DataFrame -> bool) (w : World) :
  read_only rule verdict -> appends rule ->
  rule w = (Ok (verdict (frame w)),
            {| frame := frame w;
               stdout := stdout w ++ output_on rule (frame w) |}).
Proof.
  intros Hro Happ. specialize (Hro w). specialize (Happ w).
  destruct (rule w) as [o w']. simpl in *. destruct Hro as [-> _].
  rewrite Happ. reflexivity.
Qed.

(** X15.  What the program prints is its parts in sequence: whatever was
    on standard output before stays, then come the banner of [load_data],
    the section of each of the five rules as the rule prints it on the
    table, in the order missing values, temperature range, humidity range,
    duplicates, outliers, and the report on the five results; [main]
    returns normally and leaves the table as the frame. *)
Theorem main_output (w : World) :
  let df := DataFrame_of (readings sensor_data) in
  let results := [ missing_values_verdict df; temperature_range_verdict df;
                   humidity_range_verdict df; duplicates_verdict df;
                   outliers_verdict df ] in
  main w
  = (Ok tt,
     {| frame := df;
        stdout := stdout w
          ++ output_on load_data (frame w)
          ++ output_on test_missing_values df
          ++ output_on test_temperature_range df
          ++ output_on test_humidity_range df
          ++ output_on test_duplicates df
          ++ output_on test_outliers df
          ++ output_on (generate_report results) df |}).
Proof.
  intros df results. unfold main.
  unfold bind at 1. rewrite load_data_appends. fold df.
  unfold bind at 1.
  rewrite (rule_run _ _ _ test_missing_values_run test_missing_values_appends).
  cbn [frame stdout]. unfold bind at 1.
  rewrite (rule_run _ _ _ test_temperature_range_run
             test_temperature_range_appends).
  cbn [frame stdout]. unfold bind at 1.
  rewrite (rule_run _ _ _ test_humidity_range_run test_humidity_range_appends).
  cbn [frame stdout]. unfold bind at 1.
  rewrite (rule_run _ _ _ test_duplicates_run test_duplicates_appends).
  cbn [frame stdout]. unfold bind at 1.
  rewrite (rule_run _ _ _ test_outliers_run test_outliers_appends).
  cbn [frame stdout app]. fold results.
  pose proof (generate_report_appends (missing_values_verdict df)
                (tl results)) as Happ.
  change (missing_values_verdict df :: tl results) with results in Happ.
  pose proof (generate_report_Ok (missing_values_verdict df) (tl results))
    as Hok.
  change (missing_values_verdict df :: tl results) with results in Hok.
  match goal with
  | |- generate_report results ?w0 = _ =>
      specialize (Happ w0); specialize (Hok w0);
      destruct (generate_report results w0) as [o w1]
  end.
  simpl in Happ, Hok. subst o. rewrite Happ. cbn [frame stdout]. f_equal.
  f_equal. repeat rewrite <- app_assoc. reflexivity.
Qed.
